(** * pyedflib.edfwriter: the EDF/BDF writer session

    A shallow embedding of [pyedflib/edfwriter.py] (class [EdfWriter]) and the
    properties of its header state, its bulk sample writer [writeSamples] and
    its annotation writer [writeAnnotation].

    Conventions of the embedding:
    - a Python [str] is a [string] holding its UTF-8 bytes, so that
      [u(x).encode('UTF-8')] and [du(x)] are the identity;
    - a Python [float] and a numpy [float64] are binary64 numbers ([float]);
    - a method of the class is a computation in the monad [M]: it reads and
      updates the object [self], appends to the log of calls made on the
      codec (the extension module [_pyedflib]) and either returns or raises;
    - every codec call is made on [self.handle]; the handle is left out of
      the logged calls, and so is the status that a call returns;
    - a numpy array of samples is one-dimensional, a [list float], so that
      [np.size(a)], [np.max(a.shape)] and [len(a.flatten())] are its length. *)

From Stdlib Require Import ZArith String Ascii Bool Lia.
From Stdlib Require Import PrimFloat FloatOps SpecFloat FloatAxioms.
From stdpp Require Import base list.

Set Warnings "-inexact-float".

Open Scope string_scope.
Open Scope list_scope.
Open Scope Z_scope.

(** * Python values *)

(** [datetime.date]. *)
Record date := mkdate { year : Z; month : Z; day : Z }.

(** [datetime.datetime], to the second. *)
Record datetime := mkdatetime {
  dt_year : Z; dt_month : Z; dt_day : Z;
  dt_hour : Z; dt_minute : Z; dt_second : Z }.

(** What [self.gender] may hold: [isinstance(self.gender, int)] or a string. *)
Inductive gender_value :=
| GenderInt (code : Z)
| GenderStr (s : string).

(** What [self.birthdate] may hold: [isinstance(self.birthdate, str)] or a
    [date]. *)
Inductive birthdate_value :=
| BirthStr (s : string)
| BirthDate (d : date).

(** Modelled from the spec: the four format kinds [FILETYPE_EDF],
    [FILETYPE_EDFPLUS], [FILETYPE_BDF] and [FILETYPE_BDFPLUS] that the
    constructor's docstring lists; the constants themselves are defined in the
    extension module [_pyedflib], which is not part of the sources. *)
Inductive filetype :=
| FILETYPE_EDF
| FILETYPE_EDFPLUS
| FILETYPE_BDF
| FILETYPE_BDFPLUS.

Definition filetype_eqb (a b : filetype) : bool :=
  match a, b with
  | FILETYPE_EDF, FILETYPE_EDF
  | FILETYPE_EDFPLUS, FILETYPE_EDFPLUS
  | FILETYPE_BDF, FILETYPE_BDF
  | FILETYPE_BDFPLUS, FILETYPE_BDFPLUS => true
  | _, _ => false
  end.

(** The exceptions that the methods raise or let through. *)
Inductive exception :=
| ChannelDoesNotExist (value : Z)
| WrongInputSize (value : nat)
| IndexError
| ValueError
| UnicodeEncodeError.

(** How a call ends. [OutOfFuel] is the model's only addition: the [while]
    loop of [writeSamples] was still running when the fuel ran out. *)
Inductive outcome (A : Type) :=
| Return (a : A)
| Raise (e : exception)
| OutOfFuel.
Arguments Return {A} a.
Arguments Raise {A} e.
Arguments OutOfFuel {A}.

(** * The channel dictionaries and the object *)

(** One entry of [self.channels]: the dictionary with the nine keys that
    [update_header] reads. [sample_rate] is a number of samples per data
    record, a count, and so a natural number. *)
Record channel := mkchannel {
  label : string;
  dimension : string;
  sample_rate : nat;
  physical_max : float;
  physical_min : float;
  digital_max : Z;
  digital_min : Z;
  prefilter : string;
  transducer : string }.

(** The attributes of an [EdfWriter] object. [n_channels] is the number of
    channels given to the constructor, a natural number. *)
Record EdfWriter := mkEdfWriter {
  path : string;
  file_type : filetype;
  patient_name : string;
  patient_code : string;
  technician : string;
  equipment : string;
  recording_additional : string;
  patient_additional : string;
  admincode : string;
  gender : gender_value;
  recording_start_time : datetime;
  birthdate : birthdate_value;
  duration : float;
  n_channels : nat;
  channels : list channel;
  sample_buffer : list (list float);
  handle : Z }.

(** The calls of [_pyedflib] that the class makes. The codec function
    [write_physical_samples(handle, data)] takes no channel number; the
    [for_channel] logged with a call is the channel index [i] of the loop of
    [writeSamples] that wrote the buffer, kept to state for which channel the
    caller meant it. *)
Inductive codec_call :=
| set_technician (b : string)
| set_recording_additional (b : string)
| set_patientname (b : string)
| set_patientcode (b : string)
| set_patient_additional (b : string)
| set_equipment (b : string)
| set_admincode (b : string)
| set_gender (code : Z)
| set_datarecord_duration (d : float)
| set_startdatetime (y mo d h mi s : Z)
| set_birthdate (y mo d : Z)
| set_samplefrequency (i : nat) (v : nat)
| set_physical_maximum (i : nat) (v : float)
| set_physical_minimum (i : nat) (v : float)
| set_digital_maximum (i : nat) (v : Z)
| set_digital_minimum (i : nat) (v : Z)
| set_label (i : nat) (b : string)
| set_physical_dimension (i : nat) (b : string)
| set_transducer (i : nat) (b : string)
| set_prefilter (i : nat) (b : string)
| write_physical_samples (for_channel : nat) (data : list float)
| write_annotation_utf8 (onset duration : Z) (text : string)
| write_annotation_latin1 (onset duration : Z) (text : string).

(** * The monad of method bodies

    A computation takes the object, and gives the object as it leaves it, the
    codec calls it made, oldest first, and its outcome. *)
Definition M (A : Type) : Type :=
  EdfWriter -> EdfWriter * list codec_call * outcome A.

#[global] Instance M_ret : MRet M :=
  fun A a self => (self, [], Return a).

#[global] Instance M_bind : MBind M :=
  fun A B f m self =>
    match m self with
    | (self1, log1, Return a) =>
        match f a self1 with
        | (self2, log2, r) => (self2, log1 ++ log2, r)
        end
    | (self1, log1, Raise e) => (self1, log1, Raise e)
    | (self1, log1, OutOfFuel) => (self1, log1, OutOfFuel)
    end.

Definition get_self : M EdfWriter :=
  fun self => (self, [], Return self).

Definition set_self (self' : EdfWriter) : M unit :=
  fun _ => (self', [], Return tt).

Definition raise {A} (e : exception) : M A :=
  fun self => (self, [], Raise e).

Definition out_of_fuel {A} : M A :=
  fun self => (self, [], OutOfFuel).

Definition call (c : codec_call) : M unit :=
  fun self => (self, [c], Return tt).

(** The three components of a run. *)
Definition self_after {A} (r : EdfWriter * list codec_call * outcome A) : EdfWriter :=
  fst (fst r).
Definition calls_of {A} (r : EdfWriter * list codec_call * outcome A) : list codec_call :=
  snd (fst r).
Definition outcome_of {A} (r : EdfWriter * list codec_call * outcome A) : outcome A :=
  snd r.

(** [for i in np.arange(n): body], with the local variables that the body
    updates threaded through as [x]. *)
Fixpoint for_in {X} (l : list nat) (body : nat -> X -> M X) (x : X) : M X :=
  match l with
  | [] => mret x
  | i :: l' => x' ← body i x; for_in l' body x'
  end.

Definition for_arange {X} (n : nat) (body : nat -> X -> M X) (x : X) : M X :=
  for_in (seq 0 n) body x.

(** [l[i]] for a Python list and an integer index: a negative index counts
    from the end, and an index outside the list raises [IndexError]. *)
Definition py_index {A} (l : list A) (i : Z) : option nat :=
  let len := Z.of_nat (length l) in
  if (0 <=? i) && (i <? len) then Some (Z.to_nat i)
  else if (i <? 0) && (0 <=? i + len) then Some (Z.to_nat (i + len))
  else None.

Definition py_getitem {A} (l : list A) (i : Z) : M A :=
  match py_index l i with
  | Some k => match l !! k with Some a => mret a | None => raise IndexError end
  | None => raise IndexError
  end.

(** Assignments to the attributes of [self] and to the keys of a channel
    dictionary. *)
Definition with_technician (v : string) (o : EdfWriter) : EdfWriter :=
  mkEdfWriter (path o) (file_type o) (patient_name o) (patient_code o) v
    (equipment o) (recording_additional o) (patient_additional o) (admincode o)
    (gender o) (recording_start_time o) (birthdate o) (duration o)
    (n_channels o) (channels o) (sample_buffer o) (handle o).
Definition with_recording_additional (v : string) (o : EdfWriter) : EdfWriter :=
  mkEdfWriter (path o) (file_type o) (patient_name o) (patient_code o) (technician o)
    (equipment o) v (patient_additional o) (admincode o)
    (gender o) (recording_start_time o) (birthdate o) (duration o)
    (n_channels o) (channels o) (sample_buffer o) (handle o).
Definition with_patient_name (v : string) (o : EdfWriter) : EdfWriter :=
  mkEdfWriter (path o) (file_type o) v (patient_code o) (technician o)
    (equipment o) (recording_additional o) (patient_additional o) (admincode o)
    (gender o) (recording_start_time o) (birthdate o) (duration o)
    (n_channels o) (channels o) (sample_buffer o) (handle o).
Definition with_patient_code (v : string) (o : EdfWriter) : EdfWriter :=
  mkEdfWriter (path o) (file_type o) (patient_name o) v (technician o)
    (equipment o) (recording_additional o) (patient_additional o) (admincode o)
    (gender o) (recording_start_time o) (birthdate o) (duration o)
    (n_channels o) (channels o) (sample_buffer o) (handle o).
Definition with_patient_additional (v : string) (o : EdfWriter) : EdfWriter :=
  mkEdfWriter (path o) (file_type o) (patient_name o) (patient_code o) (technician o)
    (equipment o) (recording_additional o) v (admincode o)
    (gender o) (recording_start_time o) (birthdate o) (duration o)
    (n_channels o) (channels o) (sample_buffer o) (handle o).
Definition with_equipment (v : string) (o : EdfWriter) : EdfWriter :=
  mkEdfWriter (path o) (file_type o) (patient_name o) (patient_code o) (technician o)
    v (recording_additional o) (patient_additional o) (admincode o)
    (gender o) (recording_start_time o) (birthdate o) (duration o)
    (n_channels o) (channels o) (sample_buffer o) (handle o).
Definition with_admincode (v : string) (o : EdfWriter) : EdfWriter :=
  mkEdfWriter (path o) (file_type o) (patient_name o) (patient_code o) (technician o)
    (equipment o) (recording_additional o) (patient_additional o) v
    (gender o) (recording_start_time o) (birthdate o) (duration o)
    (n_channels o) (channels o) (sample_buffer o) (handle o).
Definition with_gender (v : gender_value) (o : EdfWriter) : EdfWriter :=
  mkEdfWriter (path o) (file_type o) (patient_name o) (patient_code o) (technician o)
    (equipment o) (recording_additional o) (patient_additional o) (admincode o)
    v (recording_start_time o) (birthdate o) (duration o)
    (n_channels o) (channels o) (sample_buffer o) (handle o).
Definition with_recording_start_time (v : datetime) (o : EdfWriter) : EdfWriter :=
  mkEdfWriter (path o) (file_type o) (patient_name o) (patient_code o) (technician o)
    (equipment o) (recording_additional o) (patient_additional o) (admincode o)
    (gender o) v (birthdate o) (duration o)
    (n_channels o) (channels o) (sample_buffer o) (handle o).
Definition with_birthdate (v : birthdate_value) (o : EdfWriter) : EdfWriter :=
  mkEdfWriter (path o) (file_type o) (patient_name o) (patient_code o) (technician o)
    (equipment o) (recording_additional o) (patient_additional o) (admincode o)
    (gender o) (recording_start_time o) v (duration o)
    (n_channels o) (channels o) (sample_buffer o) (handle o).
Definition with_duration (v : float) (o : EdfWriter) : EdfWriter :=
  mkEdfWriter (path o) (file_type o) (patient_name o) (patient_code o) (technician o)
    (equipment o) (recording_additional o) (patient_additional o) (admincode o)
    (gender o) (recording_start_time o) (birthdate o) v
    (n_channels o) (channels o) (sample_buffer o) (handle o).
Definition with_channels (v : list channel) (o : EdfWriter) : EdfWriter :=
  mkEdfWriter (path o) (file_type o) (patient_name o) (patient_code o) (technician o)
    (equipment o) (recording_additional o) (patient_additional o) (admincode o)
    (gender o) (recording_start_time o) (birthdate o) (duration o)
    (n_channels o) v (sample_buffer o) (handle o).

Definition with_label (v : string) (c : channel) : channel :=
  mkchannel v (dimension c) (sample_rate c) (physical_max c) (physical_min c)
    (digital_max c) (digital_min c) (prefilter c) (transducer c).
Definition with_dimension (v : string) (c : channel) : channel :=
  mkchannel (label c) v (sample_rate c) (physical_max c) (physical_min c)
    (digital_max c) (digital_min c) (prefilter c) (transducer c).
Definition with_sample_rate (v : nat) (c : channel) : channel :=
  mkchannel (label c) (dimension c) v (physical_max c) (physical_min c)
    (digital_max c) (digital_min c) (prefilter c) (transducer c).
Definition with_physical_max (v : float) (c : channel) : channel :=
  mkchannel (label c) (dimension c) (sample_rate c) v (physical_min c)
    (digital_max c) (digital_min c) (prefilter c) (transducer c).
Definition with_physical_min (v : float) (c : channel) : channel :=
  mkchannel (label c) (dimension c) (sample_rate c) (physical_max c) v
    (digital_max c) (digital_min c) (prefilter c) (transducer c).
Definition with_digital_max (v : Z) (c : channel) : channel :=
  mkchannel (label c) (dimension c) (sample_rate c) (physical_max c) (physical_min c)
    v (digital_min c) (prefilter c) (transducer c).
Definition with_digital_min (v : Z) (c : channel) : channel :=
  mkchannel (label c) (dimension c) (sample_rate c) (physical_max c) (physical_min c)
    (digital_max c) v (prefilter c) (transducer c).
Definition with_prefilter (v : string) (c : channel) : channel :=
  mkchannel (label c) (dimension c) (sample_rate c) (physical_max c) (physical_min c)
    (digital_max c) (digital_min c) v (transducer c).
Definition with_transducer (v : string) (c : channel) : channel :=
  mkchannel (label c) (dimension c) (sample_rate c) (physical_max c) (physical_min c)
    (digital_max c) (digital_min c) (prefilter c) v.

(** [self.attr = v]. *)
Definition assign (upd : EdfWriter -> EdfWriter) : M unit :=
  fun self => (upd self, [], Return tt).

(** [self.channels[i]], read. *)
Definition channels_getitem (i : Z) : M channel :=
  self ← get_self; py_getitem (channels self) i.

(** [self.channels[i] = c]. *)
Definition channels_setitem (i : Z) (c : channel) : M unit :=
  self ← get_self;
  match py_index (channels self) i with
  | Some k => assign (with_channels (<[k := c]> (channels self)))
  | None => raise IndexError
  end.

(** [self.channels[i][key] = v]: the list is indexed first, then the
    dictionary found there is updated in place. The dictionaries are held
    by value, one per index: this is the code's behaviour as long as the
    dictionary at index [i] is stored at no other index, which is so of
    every object made by the constructor unless the caller hands one
    dictionary to [setSignalHeader] or [setSignalHeaders] for several
    channels (then the code changes all of them at once). What is proved
    about the contents of the other channels after such an update is stated
    for the objects of [reachable_unshared] only. *)
Definition channels_setkey (i : Z) (upd : channel -> channel) : M unit :=
  c ← channels_getitem i; channels_setitem i (upd c).

(** * [EdfWriter.__init__] *)

Definition default_channel (dmax dmin : Z) : channel :=
  {| label := "test_label"; dimension := "mV"; sample_rate := 100;
     physical_max := 1.0%float; physical_min := (-1.0)%float;
     digital_max := dmax; digital_min := dmin;
     prefilter := "pre1"; transducer := "trans1" |}.

(** The loop of the constructor, [k] iterations from the lists built so far:
    each appends one channel dictionary and, in the second branch only, one
    empty sample buffer. *)
Fixpoint init_loop (ft : filetype) (k : nat)
    (chs : list channel) (bufs : list (list float))
  : list channel * list (list float) :=
  match k with
  | O => (chs, bufs)
  | S k' =>
      if filetype_eqb ft FILETYPE_EDFPLUS || filetype_eqb ft FILETYPE_BDFPLUS
      then init_loop ft k' (chs ++ [default_channel 8388607 (-8388608)]) bufs
      else init_loop ft k' (chs ++ [default_channel 32767 (-32768)]) (bufs ++ [[]])
  end.

(** [EdfWriter(file_name, n_channels, file_type)]. [now] is the value of
    [datetime.now()] and [h] the handle that [open_file_writeonly] returns. *)
Definition EdfWriter_init (file_name : string) (n : nat) (ft : filetype)
    (now : datetime) (h : Z) : EdfWriter :=
  let '(chs, bufs) := init_loop ft n [] [] in
  {| path := file_name; file_type := ft;
     patient_name := ""; patient_code := ""; technician := ""; equipment := "";
     recording_additional := ""; patient_additional := ""; admincode := "";
     gender := GenderInt 0;
     recording_start_time := now;
     birthdate := BirthDate (mkdate 1900 1 1);
     duration := 1%float;
     n_channels := n; channels := chs; sample_buffer := bufs;
     handle := h |}.

(** * The header methods *)

(** The argument of [setHeader]: a dictionary with these ten keys. *)
Record file_header := mkfile_header {
  fh_technician : string;
  fh_recording_additional : string;
  fh_patientname : string;
  fh_patient_additional : string;
  fh_patientcode : string;
  fh_equipment : string;
  fh_admincode : string;
  fh_gender : gender_value;
  fh_startdate : datetime;
  fh_birthdate : birthdate_value }.

Section Header.

(** [datetime.strptime(s, '%d %b %Y').date()], of Python's library: [None]
    when it raises [ValueError]. *)
Variable strptime : string -> option date.

(** The codec calls that [update_header] makes for channel [i]. *)
Definition update_channel (i : nat) (_ : unit) : M unit :=
  c ← channels_getitem (Z.of_nat i); call (set_samplefrequency i (sample_rate c));;
  c ← channels_getitem (Z.of_nat i); call (set_physical_maximum i (physical_max c));;
  c ← channels_getitem (Z.of_nat i); call (set_physical_minimum i (physical_min c));;
  c ← channels_getitem (Z.of_nat i); call (set_digital_maximum i (digital_max c));;
  c ← channels_getitem (Z.of_nat i); call (set_digital_minimum i (digital_min c));;
  c ← channels_getitem (Z.of_nat i); call (set_label i (label c));;
  c ← channels_getitem (Z.of_nat i); call (set_physical_dimension i (dimension c));;
  c ← channels_getitem (Z.of_nat i); call (set_transducer i (transducer c));;
  c ← channels_getitem (Z.of_nat i); call (set_prefilter i (prefilter c)).

Definition update_gender : M unit :=
  self ← get_self;
  match gender self with
  | GenderInt code => call (set_gender code)
  | GenderStr s =>
      if String.eqb s "Male" then call (set_gender 0)
      else if String.eqb s "Female" then call (set_gender 1)
      else mret tt
  end.

Definition update_birthdate : M unit :=
  self ← get_self;
  match birthdate self with
  | BirthStr s =>
      birthday ← (if String.eqb s "" then mret (mkdate 1900 1 1)
                  else match strptime s with
                       | Some d => mret d
                       | None => raise ValueError
                       end);
      call (set_birthdate (year birthday) (month birthday) (day birthday))
  | BirthDate d => call (set_birthdate (year d) (month d) (day d))
  end.

Definition update_header : M unit :=
  self ← get_self;
  call (set_technician (technician self));;
  call (set_recording_additional (recording_additional self));;
  call (set_patientname (patient_name self));;
  call (set_patientcode (patient_code self));;
  call (set_patient_additional (patient_additional self));;
  call (set_equipment (equipment self));;
  call (set_admincode (admincode self));;
  update_gender;;
  call (set_datarecord_duration (duration self));;
  (let t := recording_start_time self in
   call (set_startdatetime (dt_year t) (dt_month t) (dt_day t)
           (dt_hour t) (dt_minute t) (dt_second t)));;
  update_birthdate;;
  for_arange (n_channels self) update_channel tt.

Definition setHeader (fileHeader : file_header) : M unit :=
  assign (with_technician (fh_technician fileHeader));;
  assign (with_recording_additional (fh_recording_additional fileHeader));;
  assign (with_patient_name (fh_patientname fileHeader));;
  assign (with_patient_additional (fh_patient_additional fileHeader));;
  assign (with_patient_code (fh_patientcode fileHeader));;
  assign (with_equipment (fh_equipment fileHeader));;
  assign (with_admincode (fh_admincode fileHeader));;
  assign (with_gender (fh_gender fileHeader));;
  assign (with_recording_start_time (fh_startdate fileHeader));;
  assign (with_birthdate (fh_birthdate fileHeader));;
  update_header.

(** The test that opens every per-channel setter:
    [if edfsignal < 0 or edfsignal > self.n_channels: raise ...]. *)
Definition check_edfsignal (edfsignal : Z) : M unit :=
  self ← get_self;
  if (edfsignal <? 0) || (edfsignal >? Z.of_nat (n_channels self))
  then raise (ChannelDoesNotExist edfsignal)
  else mret tt.

Definition setSignalHeader (edfsignal : Z) (channel_info : channel) : M unit :=
  check_edfsignal edfsignal;;
  channels_setitem edfsignal channel_info;;
  update_header.

Definition setSignalHeaders (signalHeaders : list channel) : M unit :=
  self ← get_self;
  for_arange (n_channels self)
    (fun edfsignal _ =>
       match signalHeaders !! edfsignal with
       | Some h => channels_setitem (Z.of_nat edfsignal) h
       | None => raise IndexError
       end) tt;;
  update_header.

Definition setTechnician (v : string) : M unit :=
  assign (with_technician v);; update_header.

Definition setRecordingAdditional (v : string) : M unit :=
  assign (with_recording_additional v);; update_header.

Definition setPatientName (v : string) : M unit :=
  assign (with_patient_name v);; update_header.

Definition setPatientCode (v : string) : M unit :=
  assign (with_patient_code v);; update_header.

(** The body reads [self.technician = patient_additional]. *)
Definition setPatientAdditional (patient_additional : string) : M unit :=
  assign (with_technician patient_additional);; update_header.

Definition setEquipment (v : string) : M unit :=
  assign (with_equipment v);; update_header.

Definition setAdmincode (v : string) : M unit :=
  assign (with_admincode v);; update_header.

Definition setGender (v : gender_value) : M unit :=
  assign (with_gender v);; update_header.

Definition setDatarecordDuration (v : float) : M unit :=
  assign (with_duration v);; update_header.

Definition setStartdatetime (v : datetime) : M unit :=
  assign (with_recording_start_time v);; update_header.

Definition setBirthdate (v : birthdate_value) : M unit :=
  assign (with_birthdate v);; update_header.

Definition setSamplefrequency (edfsignal : Z) (samplefrequency : nat) : M unit :=
  check_edfsignal edfsignal;;
  channels_setkey edfsignal (with_sample_rate samplefrequency);;
  update_header.

Definition setPhysicalMaximum (edfsignal : Z) (physical_maximum : float) : M unit :=
  check_edfsignal edfsignal;;
  channels_setkey edfsignal (with_physical_max physical_maximum);;
  update_header.

Definition setPhysicalMinimum (edfsignal : Z) (physical_minimum : float) : M unit :=
  check_edfsignal edfsignal;;
  channels_setkey edfsignal (with_physical_min physical_minimum);;
  update_header.

Definition setDigitalMaximum (edfsignal : Z) (digital_maximum : Z) : M unit :=
  check_edfsignal edfsignal;;
  channels_setkey edfsignal (with_digital_max digital_maximum);;
  update_header.

Definition setDigitalMinimum (edfsignal : Z) (digital_minimum : Z) : M unit :=
  check_edfsignal edfsignal;;
  channels_setkey edfsignal (with_digital_min digital_minimum);;
  update_header.

Definition setLabel (edfsignal : Z) (v : string) : M unit :=
  check_edfsignal edfsignal;;
  channels_setkey edfsignal (with_label v);;
  update_header.

Definition setPhysicalDimension (edfsignal : Z) (v : string) : M unit :=
  check_edfsignal edfsignal;;
  channels_setkey edfsignal (with_dimension v);;
  update_header.

Definition setTransducer (edfsignal : Z) (v : string) : M unit :=
  check_edfsignal edfsignal;;
  channels_setkey edfsignal (with_transducer v);;
  update_header.

Definition setPrefilter (edfsignal : Z) (v : string) : M unit :=
  check_edfsignal edfsignal;;
  channels_setkey edfsignal (with_prefilter v);;
  update_header.

(** The ten per-channel setters, by name and argument. *)
Inductive channel_setter :=
| SetSignalHeader (channel_info : channel)
| SetSamplefrequency (v : nat)
| SetPhysicalMaximum (v : float)
| SetPhysicalMinimum (v : float)
| SetDigitalMaximum (v : Z)
| SetDigitalMinimum (v : Z)
| SetLabel (v : string)
| SetPhysicalDimension (v : string)
| SetTransducer (v : string)
| SetPrefilter (v : string).

Definition run_channel_setter (m : channel_setter) (edfsignal : Z) : M unit :=
  match m with
  | SetSignalHeader c => setSignalHeader edfsignal c
  | SetSamplefrequency v => setSamplefrequency edfsignal v
  | SetPhysicalMaximum v => setPhysicalMaximum edfsignal v
  | SetPhysicalMinimum v => setPhysicalMinimum edfsignal v
  | SetDigitalMaximum v => setDigitalMaximum edfsignal v
  | SetDigitalMinimum v => setDigitalMinimum edfsignal v
  | SetLabel v => setLabel edfsignal v
  | SetPhysicalDimension v => setPhysicalDimension edfsignal v
  | SetTransducer v => setTransducer edfsignal v
  | SetPrefilter v => setPrefilter edfsignal v
  end.

End Header.

(** * numpy and Python slices *)

(** [np.zeros(n)]. *)
Definition np_zeros (n : nat) : list float := replicate n 0%float.

(** [a[i:j]] for [0 <= i]: the elements from position [i] up to, not
    including, position [j], as far as the array has them. *)
Definition py_slice (a : list float) (i j : nat) : list float :=
  take (j - i) (drop i a).

(** [a[-r:]] for [r > 0]: the last [r] elements, all of them when the array
    has fewer. *)
Definition py_last (a : list float) (r : nat) : list float :=
  drop (length a - r) a.

(** [a[:r] = src] on a numpy array: the target is the first [min r (len a)]
    positions; [src] must have that many elements, or one element, which is
    then broadcast; anything else raises [ValueError]. *)
Definition np_assign_prefix (a : list float) (r : nat) (src : list float)
  : M (list float) :=
  let t := Nat.min r (length a) in
  if Nat.eqb (length src) t then mret (src ++ drop t a)
  else match src with
       | [x] => mret (replicate t x ++ drop t a)
       | _ => raise ValueError
       end.

(** * [writePhysicalSamples] and [writeSamples] *)

Definition writePhysicalSamples (for_channel : nat) (data : list float) : M unit :=
  call (write_physical_samples for_channel data).

Section WriteSamples.

Variable data_list : list (list float).

(** [ind.append(0)]. *)
Definition ind_body (_ : nat) (ind : list nat) : M (list nat) :=
  mret (ind ++ [0%nat]).

(** [if np.size(data_list[i]) < ind[i] + self.channels[i]['sample_rate']:
    notAtEnd = False]. *)
Definition check_body (ind : list nat) (i : nat) (notAtEnd : bool) : M bool :=
  d ← py_getitem data_list (Z.of_nat i);
  k ← py_getitem ind (Z.of_nat i);
  c ← channels_getitem (Z.of_nat i);
  if (length d <? k + sample_rate c)%nat then mret false else mret notAtEnd.

(** One turn of the [for] loop inside [while notAtEnd]: write the slice, then
    [ind[i] += self.channels[i]['sample_rate']]. *)
Definition round_body (i : nat) (ind : list nat) : M (list nat) :=
  d ← py_getitem data_list (Z.of_nat i);
  k ← py_getitem ind (Z.of_nat i);
  c ← channels_getitem (Z.of_nat i);
  writePhysicalSamples i (py_slice d k (k + sample_rate c));;
  k' ← py_getitem ind (Z.of_nat i);
  c' ← channels_getitem (Z.of_nat i);
  mret (<[i := (k' + sample_rate c')%nat]> ind).

(** [while notAtEnd: ...]: a round of writes, then the test again. *)
Fixpoint while_notAtEnd (fuel : nat) (notAtEnd : bool) (ind : list nat)
  : M (list nat) :=
  if notAtEnd then
    match fuel with
    | O => out_of_fuel
    | S fuel' =>
        ind' ← for_arange (length data_list) round_body ind;
        notAtEnd' ← for_arange (length data_list) (check_body ind') notAtEnd;
        while_notAtEnd fuel' notAtEnd' ind'
    end
  else mret ind.

(** One turn of the last loop. *)
Definition last_body (ind : list nat) (i : nat) (_ : unit) : M unit :=
  c ← channels_getitem (Z.of_nat i);
  let lastSamples := np_zeros (sample_rate c) in
  d ← py_getitem data_list (Z.of_nat i);
  k ← py_getitem ind (Z.of_nat i);
  let lastSampleInd := Z.of_nat (length d) - Z.of_nat k in
  if lastSampleInd >? 0 then
    lastSamples' ← np_assign_prefix lastSamples (Z.to_nat lastSampleInd)
                     (py_last d (Z.to_nat lastSampleInd));
    writePhysicalSamples i lastSamples'
  else mret tt.

Definition writeSamples (fuel : nat) : M unit :=
  self ← get_self;
  if negb (Nat.eqb (length data_list) (length (channels self)))
  then raise (WrongInputSize (length data_list))
  else
    ind ← for_arange (length data_list) ind_body [];
    notAtEnd ← for_arange (length data_list) (check_body ind) true;
    ind' ← while_notAtEnd fuel notAtEnd ind;
    for_arange (length data_list) (last_body ind') tt.

End WriteSamples.

(** * [writeAnnotation] *)

(** [np.round(x)] on a float: the nearest integer, a tie going to the even
    one (C's [rint] in the default rounding mode), by the usual addition and
    subtraction of [2^52]; the sign of a zero result is not kept. *)
Definition np_round (x : float) : float :=
  if PrimFloat.ltb (abs x) 0x1p52%float then
    if PrimFloat.ltb x 0%float
    then ((x - 0x1p52) + 0x1p52)%float
    else ((x + 0x1p52) - 0x1p52)%float
  else x.

(** [x.astype(int)] on a [float64]: the conversion of C to a 64-bit integer,
    towards zero. Outside the 64-bit range and on a NaN the C conversion is
    not defined; the value given here is the one of x86-64, [-2^63]. *)
Definition astype_int (x : float) : Z :=
  match Prim2SF x with
  | S754_zero _ => 0
  | S754_finite s m e =>
      let a := match e with
               | Z0 => Zpos m
               | Zpos p => Z.shiftl (Zpos m) (Zpos p)
               | Zneg p => Z.shiftr (Zpos m) (Zpos p)
               end in
      let v := if s then - a else a in
      if (- 2 ^ 63 <=? v) && (v <? 2 ^ 63) then v else - 2 ^ 63
  | _ => - 2 ^ 63
  end.

(** [s.encode('latin1')] on the UTF-8 bytes of [s]: a code point below 128
    is its own byte, one below 256 is the two bytes [C2 xx] or [C3 xx]; any
    other code point raises [UnicodeEncodeError] ([None]). *)
Fixpoint encode_latin1 (s : string) : option string :=
  match s with
  | EmptyString => Some EmptyString
  | String c rest =>
      let n := nat_of_ascii c in
      if (n <? 128)%nat then String c <$> encode_latin1 rest
      else match rest with
           | String c2 rest' =>
               if (n =? 194)%nat then String c2 <$> encode_latin1 rest'
               else if (n =? 195)%nat
                    then String (ascii_of_nat (nat_of_ascii c2 + 64)) <$> encode_latin1 rest'
                    else None
           | EmptyString => None
           end
  end.

Definition writeAnnotation (onset_in_seconds duration_in_seconds : float)
    (description : string) (str_format : string) : M unit :=
  if String.eqb str_format "utf-8" then
    if PrimFloat.leb 0%float duration_in_seconds then
      call (write_annotation_utf8
              (astype_int (np_round (onset_in_seconds * 10000)%float))
              (astype_int (np_round (duration_in_seconds * 10000)%float))
              description)
    else
      call (write_annotation_utf8
              (astype_int (np_round (onset_in_seconds * 10000)%float))
              (-1) description)
  else
    if PrimFloat.leb 0%float duration_in_seconds then
      match encode_latin1 description with
      | Some b =>
          call (write_annotation_latin1
                  (astype_int (np_round (onset_in_seconds * 10000)%float))
                  (astype_int (np_round (duration_in_seconds * 10000)%float))
                  b)
      | None => raise UnicodeEncodeError
      end
    else
      match encode_latin1 description with
      | Some b =>
          call (write_annotation_latin1
                  (astype_int (np_round (onset_in_seconds * 10000)%float))
                  (-1) b)
      | None => raise UnicodeEncodeError
      end.

(** * An executable [strptime] for the format ['%d %b %Y']

    Python's [_strptime] turns the format into the regular expression
    [(3[0-1]|[1-2]\d|0[1-9]|[1-9]| [1-9])\s+(jan|...|dec)\s+(\d\d\d\d)],
    matched at the start of the string without regard to case; the whole
    string must be used up, and the three numbers must name a day of the
    calendar. The definition covers ASCII input and the month names of the C
    locale; it is what the examples below are run with. *)

Definition is_digit (c : ascii) : bool :=
  let n := nat_of_ascii c in (48 <=? n)%nat && (n <=? 57)%nat.

Definition digit_value (c : ascii) : Z := Z.of_nat (nat_of_ascii c) - 48.

Definition is_space (c : ascii) : bool :=
  let n := nat_of_ascii c in
  ((9 <=? n)%nat && (n <=? 13)%nat) || ((28 <=? n)%nat && (n <=? 32)%nat).

Definition lower (c : ascii) : ascii :=
  let n := nat_of_ascii c in
  if (65 <=? n)%nat && (n <=? 90)%nat then ascii_of_nat (n + 32) else c.

(** [\s+]: what is left after the longest run of spaces, if there is one. *)
Fixpoint skip_spaces (l : list ascii) : list ascii :=
  match l with
  | c :: l' => if is_space c then skip_spaces l' else l
  | [] => []
  end.

Definition spaces1 (l : list ascii) : option (list ascii) :=
  match l with
  | c :: l' => if is_space c then Some (skip_spaces l') else None
  | [] => None
  end.

Definition month_abbr : list string :=
  ["jan"; "feb"; "mar"; "apr"; "may"; "jun";
   "jul"; "aug"; "sep"; "oct"; "nov"; "dec"].

Fixpoint index_of (name : string) (names : list string) (k : Z) : option Z :=
  match names with
  | [] => None
  | n :: names' => if String.eqb name n then Some k else index_of name names' (k + 1)
  end.

(** [\s+(jan|...|dec)\s+(\d\d\d\d)] and the end of the string. *)
Definition month_year (l : list ascii) : option (Z * Z) :=
  match spaces1 l with
  | Some (a :: b :: c :: l1) =>
      match index_of (String (lower a) (String (lower b) (String (lower c) EmptyString)))
                     month_abbr 1 with
      | Some mo =>
          match spaces1 l1 with
          | Some (y1 :: y2 :: y3 :: y4 :: l2) =>
              if is_digit y1 && is_digit y2 && is_digit y3 && is_digit y4 then
                match l2 with
                | [] => Some (mo, 1000 * digit_value y1 + 100 * digit_value y2
                                  + 10 * digit_value y3 + digit_value y4)
                | _ => None
                end
              else None
          | _ => None
          end
      | None => None
      end
  | _ => None
  end.

(** The alternatives of the day, in the order of the regular expression:
    each gives the day it reads and what follows it. *)
Definition day_alternatives (l : list ascii) : list (Z * list ascii) :=
  match l with
  | c1 :: l1 =>
      let two (ok : ascii -> bool) :=
        match l1 with
        | c2 :: l2 => if ok c2 then [(10 * digit_value c1 + digit_value c2, l2)] else []
        | [] => []
        end in
      let nonzero c := is_digit c && negb (Ascii.eqb c "0") in
      (if Ascii.eqb c1 "3" then two (fun c => Ascii.eqb c "0" || Ascii.eqb c "1") else [])
      ++ (if Ascii.eqb c1 "1" || Ascii.eqb c1 "2" then two is_digit else [])
      ++ (if Ascii.eqb c1 "0" then two nonzero else [])
      ++ (if nonzero c1 then [(digit_value c1, l1)] else [])
      ++ (if Ascii.eqb c1 " "
          then match l1 with
               | c2 :: l2 => if nonzero c2 then [(digit_value c2, l2)] else []
               | [] => []
               end
          else [])
  | [] => []
  end.

Definition is_leap (y : Z) : bool :=
  ((y mod 4 =? 0) && negb (y mod 100 =? 0)) || (y mod 400 =? 0).

Definition days_in_month (y mo : Z) : Z :=
  if mo =? 2 then (if is_leap y then 29 else 28)
  else if (mo =? 4) || (mo =? 6) || (mo =? 9) || (mo =? 11) then 30
  else 31.

(** The first alternative of the day after which the rest matches decides;
    a match that leaves text over is an error, as is a date that does not
    exist. *)
Fixpoint first_match (alts : list (Z * list ascii)) : option (Z * Z * Z) :=
  match alts with
  | [] => None
  | (d, rest) :: alts' =>
      match month_year rest with
      | Some (mo, y) => Some (y, mo, d)
      | None => first_match alts'
      end
  end.

Definition strptime_dbY (s : string) : option date :=
  match first_match (day_alternatives (list_ascii_of_string s)) with
  | Some (y, mo, d) =>
      if (1 <=? y) && (d <=? days_in_month y mo) then Some (mkdate y mo d) else None
  | None => None
  end.

(** * What the methods are compared with *)

(** The object keeps as many channel dictionaries as it has channels. *)
Definition session_inv (self : EdfWriter) : Prop :=
  length (channels self) = n_channels self.

(** The gender codes and the birthdates found among codec calls. *)
Definition gender_pushed (log : list codec_call) : list Z :=
  omap (fun c => match c with set_gender code => Some code | _ => None end) log.

Definition birthdate_pushed (log : list codec_call) : list date :=
  omap (fun c => match c with
                 | set_birthdate y mo d => Some (mkdate y mo d)
                 | _ => None
                 end) log.

(** The nine calls of [update_header] for channel [i] with dictionary [c]. *)
Definition channel_calls (i : nat) (c : channel) : list codec_call :=
  [ set_samplefrequency i (sample_rate c);
    set_physical_maximum i (physical_max c);
    set_physical_minimum i (physical_min c);
    set_digital_maximum i (digital_max c);
    set_digital_minimum i (digital_min c);
    set_label i (label c);
    set_physical_dimension i (dimension c);
    set_transducer i (transducer c);
    set_prefilter i (prefilter c) ].

(** The seven text fields, in the order [update_header] pushes them. *)
Definition text_calls (self : EdfWriter) : list codec_call :=
  [ set_technician (technician self);
    set_recording_additional (recording_additional self);
    set_patientname (patient_name self);
    set_patientcode (patient_code self);
    set_patient_additional (patient_additional self);
    set_equipment (equipment self);
    set_admincode (admincode self) ].

Definition gender_calls (g : gender_value) : list codec_call :=
  match g with
  | GenderInt code => [set_gender code]
  | GenderStr s =>
      if String.eqb s "Male" then [set_gender 0]
      else if String.eqb s "Female" then [set_gender 1]
      else []
  end.

Definition time_calls (self : EdfWriter) : list codec_call :=
  let t := recording_start_time self in
  [ set_datarecord_duration (duration self);
    set_startdatetime (dt_year t) (dt_month t) (dt_day t)
      (dt_hour t) (dt_minute t) (dt_second t) ].

(** The date that a stored birthdate stands for, [None] when it is a string
    that [strptime] rejects. *)
Definition birthday_of (strptime : string -> option date) (b : birthdate_value)
  : option date :=
  match b with
  | BirthStr s => if String.eqb s "" then Some (mkdate 1900 1 1) else strptime s
  | BirthDate d => Some d
  end.

(** The calls and the outcome of [update_header]. *)
Definition update_header_calls (strptime : string -> option date)
    (self : EdfWriter) : list codec_call :=
  text_calls self ++ gender_calls (gender self) ++ time_calls self
  ++ match birthday_of strptime (birthdate self) with
     | Some d => set_birthdate (year d) (month d) (day d)
                 :: concat (imap channel_calls (channels self))
     | None => []
     end.

Definition update_header_outcome (strptime : string -> option date)
    (self : EdfWriter) : outcome unit :=
  match birthday_of strptime (birthdate self) with
  | Some _ => Return tt
  | None => Raise ValueError
  end.

(** Signed ranges of the two sample widths. *)
Definition int16 (z : Z) : Prop := - 2 ^ 15 <= z < 2 ^ 15.
Definition int24 (z : Z) : Prop := - 2 ^ 23 <= z < 2 ^ 23.

(** The tick count that [writeAnnotation] passes for [x] seconds. *)
Definition ticks (x : float) : Z := astype_int (np_round (x * 10000)%float).

(** The ticks found in an annotation call. *)
Definition annotation_ticks (c : codec_call) : option (Z * Z) :=
  match c with
  | write_annotation_utf8 onset dur _ => Some (onset, dur)
  | write_annotation_latin1 onset dur _ => Some (onset, dur)
  | _ => None
  end.

Section Multiplexer.

Variable self : EdfWriter.
Variable data_list : list (list float).

(** Rate, samples and cursor of channel [i]. *)
Definition rate (i : nat) : nat := from_option sample_rate 0%nat (channels self !! i).
Definition samples (i : nat) : list float := default [] (data_list !! i).
Definition cursor (ind : list nat) (i : nat) : nat := default 0%nat (ind !! i).

(** Every channel has a full record left past its cursor. *)
Definition all_full (ind : list nat) : bool :=
  forallb (fun i => negb (length (samples i) <? cursor ind i + rate i)%nat)
    (seq 0 (length data_list)).

(** One round: a record per channel, in channel order, cut at the cursors. *)
Definition round_calls (ind : list nat) : list codec_call :=
  map (fun i => write_physical_samples i
                  (py_slice (samples i) (cursor ind i) (cursor ind i + rate i)))
    (seq 0 (length data_list)).

Definition advance_at (ind : list nat) (i : nat) : list nat :=
  <[i := (cursor ind i + rate i)%nat]> ind.

Definition advance (ind : list nat) : list nat :=
  foldl advance_at ind (seq 0 (length data_list)).

(** The cursors after [k] rounds, and the calls of the first [k] rounds. *)
Definition cursors (k : nat) : list nat :=
  map (fun i => (k * rate i)%nat) (seq 0 (length data_list)).

Definition rounds (k : nat) : list codec_call :=
  concat (map (fun j => round_calls (cursors j)) (seq 0 k)).

(** [k] rounds are run: each channel holds [k] full records, and one of them
    holds no more. *)
Definition full_rounds (k : nat) : Prop :=
  (forall i, (i < length data_list)%nat -> (k * rate i <= length (samples i))%nat)
  /\ (exists i, (i < length data_list)%nat
                /\ (length (samples i) < (k + 1) * rate i)%nat).

(** The last record of channel [i] after [k] rounds: none when nothing is
    left, else what is left followed by zeros. *)
Definition last_calls (k : nat) : list codec_call :=
  flat_map (fun i =>
              if (k * rate i <? length (samples i))%nat
              then [write_physical_samples i
                      (drop (k * rate i) (samples i)
                       ++ np_zeros ((k + 1) * rate i - length (samples i)))]
              else [])
    (seq 0 (length data_list)).

(** A buffer written for channel [i] has [sample_rate] elements. *)
Definition full_record (c : codec_call) : Prop :=
  match c with
  | write_physical_samples i data =>
      exists ch, channels self !! i = Some ch /\ length data = sample_rate ch
  | _ => True
  end.

End Multiplexer.

(** The buffers written for channel [i], oldest first. *)
Definition records_for (i : nat) (log : list codec_call) : list (list float) :=
  omap (fun c => match c with
                 | write_physical_samples j data =>
                     if Nat.eqb i j then Some data else None
                 | _ => None
                 end) log.

(** The reading under which every channel gets a last record: after some
    number [k] of rounds, the same for all channels, channel [i] has been
    written its [k] full records and then one more, made of what is left
    past the cursor and of zeros up to [sample_rate]. *)
Definition one_last_record_each (self : EdfWriter) (data_list : list (list float))
    (log : list codec_call) : Prop :=
  exists k : nat, forall i d c,
    data_list !! i = Some d -> channels self !! i = Some c ->
    records_for i log =
      map (fun j => py_slice d (j * sample_rate c) ((j + 1) * sample_rate c)) (seq 0 k)
      ++ [drop (k * sample_rate c) d
          ++ np_zeros (sample_rate c - (length d - k * sample_rate c))].

(** The dictionary that a per-channel setter leaves at the index it is
    given, from the one found there. *)
Definition setter_update (m : channel_setter) (c : channel) : channel :=
  match m with
  | SetSignalHeader channel_info => channel_info
  | SetSamplefrequency v => with_sample_rate v c
  | SetPhysicalMaximum v => with_physical_max v c
  | SetPhysicalMinimum v => with_physical_min v c
  | SetDigitalMaximum v => with_digital_max v c
  | SetDigitalMinimum v => with_digital_min v c
  | SetLabel v => with_label v c
  | SetPhysicalDimension v => with_dimension v c
  | SetTransducer v => with_transducer v c
  | SetPrefilter v => with_prefilter v c
  end.

(** A computation that leaves the object alone and logs only calls in [P]:
    run from [self], and run from any object. *)
Definition quiet_at (P : codec_call -> Prop) {A} (m : M A) (self : EdfWriter) : Prop :=
  self_after (m self) = self /\ Forall P (calls_of (m self)).

Definition quiet (P : codec_call -> Prop) {A} (m : M A) : Prop :=
  forall self, quiet_at P m self.

(** A computation that keeps [session_inv]. *)
Definition keeps_inv {A} (m : M A) : Prop :=
  forall self, session_inv self -> session_inv (self_after (m self)).

(** * Sessions for the examples *)

Definition example_now : datetime := mkdatetime 2015 6 1 12 0 0.

(** [EdfWriter("example.edf", 3)]: three channels, the default kind. *)
Definition example_session : EdfWriter :=
  EdfWriter_init "example.edf" 3 FILETYPE_EDFPLUS example_now 0.

(** The same session once every channel was given a sample rate. *)
Definition with_rates (rs : list nat) (self : EdfWriter) : EdfWriter :=
  with_channels (zip_with with_sample_rate rs (channels self)) self.

(** Three channels of rate 2 with five samples each, and three channels of
    rate 1 with four, three and four samples, and with five, three and
    five. *)
Definition session_rate2 : EdfWriter := with_rates [2; 2; 2]%nat example_session.
Definition session_rate1 : EdfWriter := with_rates [1; 1; 1]%nat example_session.

Definition data_5_5_5 : list (list float) :=
  [ [1; 2; 3; 4; 5]; [11; 12; 13; 14; 15]; [21; 22; 23; 24; 25] ]%float.
Definition data_4_3_4 : list (list float) :=
  [ [1; 2; 3; 4]; [11; 12; 13]; [21; 22; 23; 24] ]%float.
Definition data_5_3_5 : list (list float) :=
  [ [1; 2; 3; 4; 5]; [11; 12; 13]; [21; 22; 23; 24; 25] ]%float.

(** * The methods, by name *)

(** The eleven setters of one header field, by name and argument. *)
Inductive metadata_setter :=
| SetTechnician (v : string)
| SetRecordingAdditional (v : string)
| SetPatientName (v : string)
| SetPatientCode (v : string)
| SetPatientAdditional (v : string)
| SetEquipment (v : string)
| SetAdmincode (v : string)
| SetGender (v : gender_value)
| SetDatarecordDuration (v : float)
| SetStartdatetime (v : datetime)
| SetBirthdate (v : birthdate_value).

Definition run_metadata_setter (strptime : string -> option date)
    (m : metadata_setter) : M unit :=
  match m with
  | SetTechnician v => setTechnician strptime v
  | SetRecordingAdditional v => setRecordingAdditional strptime v
  | SetPatientName v => setPatientName strptime v
  | SetPatientCode v => setPatientCode strptime v
  | SetPatientAdditional v => setPatientAdditional strptime v
  | SetEquipment v => setEquipment strptime v
  | SetAdmincode v => setAdmincode strptime v
  | SetGender v => setGender strptime v
  | SetDatarecordDuration v => setDatarecordDuration strptime v
  | SetStartdatetime v => setStartdatetime strptime v
  | SetBirthdate v => setBirthdate strptime v
  end.

(** The attribute that each of them assigns, as its body has it. *)
Definition metadata_update (m : metadata_setter) : EdfWriter -> EdfWriter :=
  match m with
  | SetTechnician v => with_technician v
  | SetRecordingAdditional v => with_recording_additional v
  | SetPatientName v => with_patient_name v
  | SetPatientCode v => with_patient_code v
  | SetPatientAdditional v => with_technician v
  | SetEquipment v => with_equipment v
  | SetAdmincode v => with_admincode v
  | SetGender v => with_gender v
  | SetDatarecordDuration v => with_duration v
  | SetStartdatetime v => with_recording_start_time v
  | SetBirthdate v => with_birthdate v
  end.

(** The ten assignments of [setHeader], in its order. *)
Definition header_update (fh : file_header) (o : EdfWriter) : EdfWriter :=
  with_birthdate (fh_birthdate fh)
    (with_recording_start_time (fh_startdate fh)
       (with_gender (fh_gender fh)
          (with_admincode (fh_admincode fh)
             (with_equipment (fh_equipment fh)
                (with_patient_code (fh_patientcode fh)
                   (with_patient_additional (fh_patient_additional fh)
                      (with_patient_name (fh_patientname fh)
                         (with_recording_additional (fh_recording_additional fh)
                            (with_technician (fh_technician fh) o))))))))).

(** A call of a method of the class. *)
Inductive method :=
| CallMetadataSetter (m : metadata_setter)
| CallChannelSetter (m : channel_setter) (edfsignal : Z)
| CallSetHeader (fileHeader : file_header)
| CallSetSignalHeaders (signalHeaders : list channel)
| CallWriteSamples (data_list : list (list float)) (fuel : nat)
| CallWriteAnnotation (onset duration : float) (description str_format : string).

Definition run_method (strptime : string -> option date) (c : method) : M unit :=
  match c with
  | CallMetadataSetter m => run_metadata_setter strptime m
  | CallChannelSetter m edfsignal => run_channel_setter strptime m edfsignal
  | CallSetHeader fh => setHeader strptime fh
  | CallSetSignalHeaders l => setSignalHeaders strptime l
  | CallWriteSamples data_list fuel => writeSamples data_list fuel
  | CallWriteAnnotation onset dur desc fmt => writeAnnotation onset dur desc fmt
  end.

(** The objects that a program can hold: one made by the constructor, then
    used through any calls, whether they return or raise. *)
Inductive reachable (strptime : string -> option date) : EdfWriter -> Prop :=
| reachable_init file_name n ft now h :
    reachable strptime (EdfWriter_init file_name n ft now h)
| reachable_call self c :
    reachable strptime self ->
    reachable strptime (self_after (run_method strptime c self)).



(** What no method is meant to touch: the attributes fixed by the
    constructor and the number of channel dictionaries. *)
Definition same_frame (o o' : EdfWriter) : Prop :=
  path o' = path o
  /\ file_type o' = file_type o
  /\ n_channels o' = n_channels o
  /\ sample_buffer o' = sample_buffer o
  /\ handle o' = handle o
  /\ length (channels o') = length (channels o).

(** A computation whose runs relate the object before to the object after. *)
Definition preserves (R : EdfWriter -> EdfWriter -> Prop) {A} (m : M A) : Prop :=
  forall self, R self (self_after (m self)).

(** The calls that hand samples to the codec. *)
Definition is_write (c : codec_call) : Prop :=
  match c with
  | write_physical_samples _ _ => True
  | _ => False
  end.

(** The calls that describe a channel. *)
Definition is_channel_call (c : codec_call) : bool :=
  match c with
  | set_samplefrequency _ _ | set_physical_maximum _ _ | set_physical_minimum _ _
  | set_digital_maximum _ _ | set_digital_minimum _ _ | set_label _ _
  | set_physical_dimension _ _ | set_transducer _ _ | set_prefilter _ _ => true
  | _ => false
  end.

(** The last records of the channels before channel [i0], after [k]
    rounds. *)
Definition last_calls_before (self : EdfWriter) (data_list : list (list float))
    (k i0 : nat) : list codec_call :=
  flat_map (fun i =>
              if (k * rate self i <? length (samples data_list i))%nat
              then [write_physical_samples i
                      (drop (k * rate self i) (samples data_list i)
                       ++ np_zeros ((k + 1) * rate self i
                                    - length (samples data_list i)))]
              else [])
    (seq 0 i0).

(** * Running computations *)

Lemma bind_Return {A B} (m : M A) (f : A -> M B) self self1 log1 a :
  m self = (self1, log1, Return a) ->
  (m ≫= f) self =
    (self_after (f a self1), log1 ++ calls_of (f a self1), outcome_of (f a self1)).
Proof.
  intros Hm. unfold mbind, M_bind. rewrite Hm.
  destruct (f a self1) as [[s2 l2] r]. reflexivity.
Qed.

Lemma bind_Raise {A B} (m : M A) (f : A -> M B) self self1 log1 e :
  m self = (self1, log1, Raise e) -> (m ≫= f) self = (self1, log1, Raise e).
Proof. intros Hm. unfold mbind, M_bind. rewrite Hm. reflexivity. Qed.

Lemma bind_OutOfFuel {A B} (m : M A) (f : A -> M B) self self1 log1 :
  m self = (self1, log1, OutOfFuel) -> (m ≫= f) self = (self1, log1, OutOfFuel).
Proof. intros Hm. unfold mbind, M_bind. rewrite Hm. reflexivity. Qed.

Lemma run_eta {A} (r : EdfWriter * list codec_call * outcome A) :
  r = (self_after r, calls_of r, outcome_of r).
Proof. destruct r as [[s l] o]. reflexivity. Qed.

Lemma quiet_ret P {A} (a : A) : quiet P (mret a).
Proof. intros s. split; [reflexivity | constructor]. Qed.

Lemma quiet_raise P {A} e : quiet P (@raise A e).
Proof. intros s. split; [reflexivity | constructor]. Qed.

Lemma quiet_get P : quiet P get_self.
Proof. intros s. split; [reflexivity | constructor]. Qed.

Lemma quiet_call (P : codec_call -> Prop) c : P c -> quiet P (call c).
Proof. intros H s. split; [reflexivity | repeat constructor; exact H]. Qed.

Lemma quiet_at_bind P {A B} (m : M A) (f : A -> M B) self :
  quiet_at P m self ->
  (forall a, outcome_of (m self) = Return a -> quiet_at P (f a) self) ->
  quiet_at P (m ≫= f) self.
Proof.
  unfold quiet_at. intros [Hs Hl] Hf.
  unfold mbind, M_bind. destruct (m self) as [[s1 l1] [a | e |]]; cbn in *; subst.
  - destruct (Hf a eq_refl) as [Hs2 Hl2].
    destruct (f a self) as [[s2 l2] r]; cbn in *. split; [exact Hs2 |].
    apply Forall_app; split; assumption.
  - split; [reflexivity | exact Hl].
  - split; [reflexivity | exact Hl].
Qed.

Lemma quiet_at_for_in P {X} (body : nat -> X -> M X) self l :
  (forall i x, quiet_at P (body i x) self) ->
  forall x, quiet_at P (for_in l body x) self.
Proof.
  intros Hb. induction l as [| i l IH]; intros x; cbn [for_in].
  - split; [reflexivity | constructor].
  - apply quiet_at_bind; [apply Hb | intros; apply IH].
Qed.

Lemma quiet_bind P {A B} (m : M A) (f : A -> M B) :
  quiet P m -> (forall a, quiet P (f a)) -> quiet P (m ≫= f).
Proof.
  intros Hm Hf s. apply quiet_at_bind; [apply Hm | intros; apply Hf].
Qed.

Lemma quiet_for_in P {X} (body : nat -> X -> M X) l :
  (forall i x, quiet P (body i x)) -> forall x, quiet P (for_in l body x).
Proof.
  intros Hb. induction l as [| i l IH]; intros x; cbn [for_in].
  - apply quiet_ret.
  - apply quiet_bind; [apply Hb | exact IH].
Qed.

Lemma quiet_py_getitem P {A} (l : list A) i : quiet P (py_getitem l i).
Proof.
  unfold py_getitem. destruct (py_index l i) as [k |]; [| apply quiet_raise].
  destruct (l !! k); [apply quiet_ret | apply quiet_raise].
Qed.

Lemma quiet_channels_getitem P i : quiet P (channels_getitem i).
Proof.
  unfold channels_getitem. apply quiet_bind; [apply quiet_get |].
  intros s. apply quiet_py_getitem.
Qed.

(** Reading a list inside its bounds. *)
Lemma py_index_nat {A} (l : list A) (i : nat) :
  (i < length l)%nat -> py_index l (Z.of_nat i) = Some i.
Proof.
  intros H. unfold py_index.
  replace (0 <=? Z.of_nat i) with true by (symmetry; apply Z.leb_le; lia).
  replace (Z.of_nat i <? Z.of_nat (length l)) with true
    by (symmetry; apply Z.ltb_lt; lia).
  cbn. rewrite Nat2Z.id. reflexivity.
Qed.

Lemma py_index_length {A} (l : list A) :
  py_index l (Z.of_nat (length l)) = None.
Proof.
  unfold py_index.
  replace (Z.of_nat (length l) <? Z.of_nat (length l)) with false
    by (symmetry; apply Z.ltb_ge; lia).
  replace (Z.of_nat (length l) <? 0) with false
    by (symmetry; apply Z.ltb_ge; lia).
  rewrite andb_false_r. reflexivity.
Qed.

Lemma py_getitem_lookup {A} (l : list A) (i : nat) a self :
  l !! i = Some a -> py_getitem l (Z.of_nat i) self = (self, [], Return a).
Proof.
  intros H. unfold py_getitem.
  rewrite py_index_nat by (apply lookup_lt_Some in H; exact H).
  rewrite H. reflexivity.
Qed.

Lemma channels_getitem_lookup (i : nat) c self :
  channels self !! i = Some c ->
  channels_getitem (Z.of_nat i) self = (self, [], Return c).
Proof.
  intros H. unfold channels_getitem.
  erewrite bind_Return by reflexivity.
  rewrite (py_getitem_lookup _ _ _ _ H). reflexivity.
Qed.

(** * [update_header] *)

Lemma update_channel_run (i : nat) c self :
  channels self !! i = Some c ->
  update_channel i tt self = (self, channel_calls i c, Return tt).
Proof.
  intros H. unfold update_channel, mbind, M_bind, call.
  rewrite !(channels_getitem_lookup _ _ _ H). reflexivity.
Qed.

Lemma update_channels_run self : forall (l pre : list channel),
  channels self = pre ++ l ->
  for_in (seq (length pre) (length l)) update_channel tt self
  = (self, concat (imap (fun j => channel_calls (length pre + j)) l), Return tt).
Proof.
  induction l as [| c l IH]; intros pre Hch; [reflexivity |].
  cbn [length seq for_in].
  erewrite bind_Return.
  2:{ apply update_channel_run. rewrite Hch.
      rewrite lookup_app_r by lia. rewrite Nat.sub_diag. reflexivity. }
  specialize (IH (pre ++ [c])). rewrite length_app in IH. cbn [length] in IH.
  rewrite Nat.add_1_r in IH. rewrite IH by (rewrite Hch, <- app_assoc; reflexivity).
  unfold self_after, calls_of, outcome_of. cbn [fst snd imap concat].
  rewrite Nat.add_0_r.
  rewrite (imap_ext ((fun j => channel_calls (length pre + j)) ∘ S)
             (fun j => channel_calls (S (length pre) + j)) l); [reflexivity |].
  intros j x _. cbn. f_equal. lia.
Qed.

Lemma update_gender_run self :
  update_gender self = (self, gender_calls (gender self), Return tt).
Proof.
  unfold update_gender, gender_calls, mbind, M_bind, get_self.
  destruct (gender self) as [code | s]; [reflexivity |].
  destruct (String.eqb s "Male"); [reflexivity |].
  destruct (String.eqb s "Female"); reflexivity.
Qed.

Lemma update_birthdate_run strptime self :
  update_birthdate strptime self
  = (self,
     match birthday_of strptime (birthdate self) with
     | Some d => [set_birthdate (year d) (month d) (day d)]
     | None => []
     end,
     update_header_outcome strptime self).
Proof.
  unfold update_birthdate, update_header_outcome, birthday_of, mbind, M_bind, get_self.
  destruct (birthdate self) as [s | d]; [| reflexivity].
  destruct (String.eqb s ""); [reflexivity |].
  destruct (strptime s); reflexivity.
Qed.

Lemma update_header_run strptime self :
  session_inv self ->
  update_header strptime self
  = (self, update_header_calls strptime self, update_header_outcome strptime self).
Proof.
  intros Hinv. unfold update_header, for_arange.
  pose proof (update_channels_run self (channels self) [] eq_refl) as Hch.
  cbn [length] in Hch. rewrite Hinv in Hch.
  pose proof (update_birthdate_run strptime self) as Hb.
  pose proof (update_gender_run self) as Hg.
  unfold mbind, M_bind, get_self, call. rewrite Hg, Hb.
  unfold update_header_calls, update_header_outcome, text_calls, time_calls.
  destruct (birthday_of strptime (birthdate self)) as [d |].
  - rewrite Hch. reflexivity.
  - reflexivity.
Qed.

Lemma quiet_update_gender P : (forall code, P (set_gender code)) -> quiet P update_gender.
Proof.
  intros HP. unfold update_gender. apply quiet_bind; [apply quiet_get | intros s].
  destruct (gender s); [apply quiet_call, HP |].
  destruct (String.eqb _ _); [apply quiet_call, HP |].
  destruct (String.eqb _ _); [apply quiet_call, HP | apply quiet_ret].
Qed.

Lemma quiet_update_birthdate P strptime :
  (forall y mo d, P (set_birthdate y mo d)) -> quiet P (update_birthdate strptime).
Proof.
  intros HP. unfold update_birthdate. apply quiet_bind; [apply quiet_get | intros s].
  destruct (birthdate s).
  - apply quiet_bind; [| intros; apply quiet_call, HP].
    destruct (String.eqb _ _); [apply quiet_ret |].
    destruct (strptime _); [apply quiet_ret | apply quiet_raise].
  - apply quiet_call, HP.
Qed.

Lemma quiet_update_channel P i x : (forall c, P c) -> quiet P (update_channel i x).
Proof.
  intros HP. unfold update_channel.
  repeat (first
    [ apply quiet_channels_getitem
    | apply quiet_call, HP
    | apply quiet_bind; [| intros ? ] ]).
Qed.

(** Whatever the object holds, [update_header] leaves it as it is. *)
Lemma update_header_quiet strptime : quiet (fun _ => True) (update_header strptime).
Proof.
  unfold update_header.
  repeat (first
    [ apply quiet_get
    | apply quiet_call; exact I
    | apply quiet_update_gender; intros; exact I
    | apply quiet_update_birthdate; intros; exact I
    | apply quiet_for_in; intros; apply quiet_update_channel; intros; exact I
    | apply quiet_bind; [| intros ? ] ]).
Qed.

Lemma update_header_self strptime self :
  self_after (update_header strptime self) = self.
Proof. apply update_header_quiet. Qed.

(** * The constructor *)

Lemma init_loop_replicate ft k : forall chs bufs,
  fst (init_loop ft k chs bufs)
  = chs ++ replicate k
             (if filetype_eqb ft FILETYPE_EDFPLUS || filetype_eqb ft FILETYPE_BDFPLUS
              then default_channel 8388607 (-8388608)
              else default_channel 32767 (-32768)).
Proof.
  induction k as [| k IH]; intros chs bufs; cbn [init_loop replicate].
  - rewrite app_nil_r. reflexivity.
  - destruct (filetype_eqb ft FILETYPE_EDFPLUS || filetype_eqb ft FILETYPE_BDFPLUS);
      rewrite IH, <- app_assoc; reflexivity.
Qed.

Lemma init_channels file_name n ft now h :
  channels (EdfWriter_init file_name n ft now h)
  = replicate n
      (if filetype_eqb ft FILETYPE_EDFPLUS || filetype_eqb ft FILETYPE_BDFPLUS
       then default_channel 8388607 (-8388608)
       else default_channel 32767 (-32768)).
Proof.
  unfold EdfWriter_init.
  pose proof (init_loop_replicate ft n [] []) as H.
  destruct (init_loop ft n [] []) as [chs bufs]. exact H.
Qed.

Lemma init_n_channels file_name n ft now h :
  n_channels (EdfWriter_init file_name n ft now h) = n.
Proof. unfold EdfWriter_init. destruct (init_loop ft n [] []). reflexivity. Qed.

Lemma init_inv file_name n ft now h :
  session_inv (EdfWriter_init file_name n ft now h).
Proof.
  unfold session_inv. rewrite init_channels, init_n_channels.
  apply length_replicate.
Qed.

(** The three kinds other than EDF+ do get defaults inside their range. *)
Lemma init_defaults_in_range file_name n ft now h c :
  ft <> FILETYPE_EDFPLUS ->
  c ∈ channels (EdfWriter_init file_name n ft now h) ->
  digital_min c < digital_max c
  /\ match ft with
     | FILETYPE_EDF | FILETYPE_EDFPLUS => int16 (digital_min c) /\ int16 (digital_max c)
     | FILETYPE_BDF | FILETYPE_BDFPLUS => int24 (digital_min c) /\ int24 (digital_max c)
     end.
Proof.
  intros Hft Hc. rewrite init_channels in Hc.
  apply elem_of_replicate in Hc as [-> _].
  unfold int16, int24. destruct ft; cbn; try congruence; lia.
Qed.

(** C7. A session constructed with the kind EDF+ (the default kind of the
    constructor) gets, for every channel, the placeholder descriptor with
    [digital_max = 8388607] and [digital_min = -8388608]: the 24-bit pair,
    which lies outside the 16-bit signed range that the EDF family and the
    docstrings of the class ask for. *)
Theorem init_edfplus_defaults_are_24bit file_name n now h :
  channels (EdfWriter_init file_name n FILETYPE_EDFPLUS now h)
  = replicate n (default_channel 8388607 (-8388608))
  /\ digital_max (default_channel 8388607 (-8388608)) = 8388607
  /\ digital_min (default_channel 8388607 (-8388608)) = -8388608
  /\ ~ int16 (digital_max (default_channel 8388607 (-8388608)))
  /\ ~ int16 (digital_min (default_channel 8388607 (-8388608))).
Proof.
  split; [apply init_channels |].
  unfold int16. cbn. repeat split; lia.
Qed.

(** * The setters of the header *)

Lemma assign_update_header strptime upd self :
  (assign upd ≫= (fun _ => update_header strptime)) self
  = (upd self, calls_of (update_header strptime (upd self)),
     outcome_of (update_header strptime (upd self))).
Proof.
  erewrite bind_Return by reflexivity.
  rewrite update_header_self. reflexivity.
Qed.

(** C6. [setPatientAdditional] stores its argument in the technician field
    and leaves the patient-additional field as it was: the field the method
    is named for is not the one it updates. *)
Theorem setPatientAdditional_overwrites_technician strptime v self :
  let r := setPatientAdditional strptime v self in
  self_after r = with_technician v self
  /\ technician (self_after r) = v
  /\ patient_additional (self_after r) = patient_additional self.
Proof.
  cbn zeta. unfold setPatientAdditional.
  rewrite assign_update_header. repeat split.
Qed.

Lemma omap_concat_imap_nil {A B C} (g : B -> option C) (l : list A) :
  forall f : nat -> A -> list B,
  (forall i a, omap g (f i a) = []) -> omap g (concat (imap f l)) = [].
Proof.
  induction l as [| a l IH]; intros f Hf; [reflexivity |].
  cbn [imap concat]. rewrite omap_app, Hf, IH; [reflexivity |].
  intros i b. apply Hf.
Qed.

Lemma gender_pushed_update_header strptime self :
  gender_pushed (update_header_calls strptime self)
  = gender_pushed (gender_calls (gender self)).
Proof.
  unfold update_header_calls, gender_pushed.
  rewrite !omap_app.
  assert (Htail : omap (fun c => match c with set_gender code => Some code | _ => None end)
                    match birthday_of strptime (birthdate self) with
                    | Some d => set_birthdate (year d) (month d) (day d)
                                :: concat (imap channel_calls (channels self))
                    | None => []
                    end = []).
  { destruct (birthday_of strptime (birthdate self)); [| reflexivity].
    cbn [omap]. apply (omap_concat_imap_nil _ (channels self) channel_calls).
    reflexivity. }
  rewrite Htail. cbn. rewrite app_nil_r. reflexivity.
Qed.

Lemma birthdate_pushed_update_header strptime self :
  birthdate_pushed (update_header_calls strptime self)
  = match birthday_of strptime (birthdate self) with
    | Some d => [d]
    | None => []
    end.
Proof.
  unfold update_header_calls, birthdate_pushed.
  rewrite !omap_app.
  assert (Hg : omap (fun c => match c with
                              | set_birthdate y mo d => Some (mkdate y mo d)
                              | _ => None
                              end) (gender_calls (gender self)) = []).
  { unfold gender_calls. destruct (gender self); [reflexivity |].
    destruct (String.eqb _ _); [reflexivity |].
    destruct (String.eqb _ _); reflexivity. }
  rewrite Hg. cbn [text_calls time_calls omap app].
  destruct (birthday_of strptime (birthdate self)) as [[y mo d] |]; [| reflexivity].
  cbn. f_equal.
  apply (omap_concat_imap_nil _ (channels self) channel_calls). reflexivity.
Qed.

Lemma setGender_run strptime g self :
  session_inv self ->
  setGender strptime g self
  = (with_gender g self, update_header_calls strptime (with_gender g self),
     update_header_outcome strptime self).
Proof.
  intros Hinv. unfold setGender. rewrite assign_update_header.
  rewrite update_header_run by exact Hinv. reflexivity.
Qed.

Lemma setBirthdate_run strptime b self :
  session_inv self ->
  setBirthdate strptime b self
  = (with_birthdate b self, update_header_calls strptime (with_birthdate b self),
     update_header_outcome strptime (with_birthdate b self)).
Proof.
  intros Hinv. unfold setBirthdate. rewrite assign_update_header.
  rewrite update_header_run by exact Hinv. reflexivity.
Qed.

(** C8. [setGender] stores its argument in [self.gender] whatever it is,
    and then pushes the whole header as every setter does. Of the calls it
    makes, the gender is the integer itself for an integer, 0 for ["Male"],
    1 for ["Female"], and is left out for any other string; all the other
    calls are those of the header of the object, the same for every
    argument. No error comes of the gender: the call returns, unless the
    birthdate stored in the object is a string that cannot be read, and
    then it raises [ValueError] after the calls that come before the
    birthdate. *)
Theorem setGender_stores_and_pushes strptime g self :
  session_inv self ->
  let r := setGender strptime g self in
  self_after r = with_gender g self
  /\ gender (self_after r) = g
  /\ gender_pushed (calls_of r)
     = match g with
       | GenderInt code => [code]
       | GenderStr s =>
           if String.eqb s "Male" then [0]
           else if String.eqb s "Female" then [1]
           else []
       end
  /\ calls_of r
     = text_calls self ++ gender_calls g ++ time_calls self
       ++ match birthday_of strptime (birthdate self) with
          | Some d => set_birthdate (year d) (month d) (day d)
                      :: concat (imap channel_calls (channels self))
          | None => []
          end
  /\ (forall s, g = GenderStr s -> s <> "Male" -> s <> "Female" ->
        gender_calls g = [])
  /\ outcome_of r
     = match birthday_of strptime (birthdate self) with
       | Some _ => Return tt
       | None => Raise ValueError
       end.
Proof.
  intros Hinv. cbn zeta. rewrite setGender_run by exact Hinv.
  unfold self_after, calls_of, outcome_of. cbn [fst snd].
  split; [reflexivity |]. split; [reflexivity |]. split; [| split; [| split]].
  - rewrite gender_pushed_update_header. cbn [gender with_gender].
    unfold gender_calls. destruct g as [code | s]; [reflexivity |].
    destruct (String.eqb s "Male"); [reflexivity |].
    destruct (String.eqb s "Female"); reflexivity.
  - reflexivity.
  - intros s -> Hm Hf. unfold gender_calls.
    apply String.eqb_neq in Hm, Hf. rewrite Hm, Hf. reflexivity.
  - reflexivity.
Qed.

Lemma setGender_stores_and_pushes_witness :
  let r := setGender strptime_dbY (GenderStr "Other") example_session in
  gender (self_after r) = GenderStr "Other"
  /\ gender_pushed (calls_of r) = []
  /\ length (calls_of r) = 37%nat
  /\ outcome_of r = Return tt.
Proof.
  pose proof (setGender_stores_and_pushes strptime_dbY (GenderStr "Other")
                example_session eq_refl) as (_ & H1 & H2 & H3 & _ & H4).
  split; [exact H1 |]. split; [exact H2 |]. split; [| exact H4].
  rewrite H3. reflexivity.
Defined.

(** C8, as the claim has it: a string other than ["Male"] and ["Female"]
    would leave the gender of the session as it was. On a fresh session,
    whose gender is the integer 0, [setGender("Other")] returns, pushes no
    gender, and leaves the string in [self.gender]. *)
Lemma setGender_other_string_mutates :
  let r := setGender strptime_dbY (GenderStr "Other") example_session in
  outcome_of r = Return tt
  /\ gender_pushed (calls_of r) = []
  /\ gender example_session = GenderInt 0
  /\ gender (self_after r) = GenderStr "Other"
  /\ gender (self_after r) <> gender example_session.
Proof. vm_compute. repeat split; congruence. Qed.

(** C9. [setBirthdate] pushes to the codec the date it is given; for the
    empty string it pushes 1900-01-01; for any other string it pushes the
    date that [strptime] reads with ['%d %b %Y'], and when [strptime]
    rejects the string the call raises [ValueError] and no birthdate is
    pushed. *)
Theorem setBirthdate_pushes strptime b self :
  session_inv self ->
  let r := setBirthdate strptime b self in
  (forall d, b = BirthDate d ->
     birthdate_pushed (calls_of r) = [d] /\ outcome_of r = Return tt)
  /\ (b = BirthStr "" ->
     birthdate_pushed (calls_of r) = [mkdate 1900 1 1] /\ outcome_of r = Return tt)
  /\ (forall s d, b = BirthStr s -> s <> "" -> strptime s = Some d ->
     birthdate_pushed (calls_of r) = [d] /\ outcome_of r = Return tt)
  /\ (forall s, b = BirthStr s -> s <> "" -> strptime s = None ->
     birthdate_pushed (calls_of r) = [] /\ outcome_of r = Raise ValueError).
Proof.
  intros Hinv. cbn zeta. rewrite setBirthdate_run by exact Hinv.
  unfold self_after, calls_of, outcome_of. cbn [fst snd].
  rewrite birthdate_pushed_update_header. unfold update_header_outcome.
  cbn [birthdate with_birthdate].
  repeat split; intros; subst b; cbn [birthday_of];
    try (match goal with H : ?s <> "" |- _ =>
           apply String.eqb_neq in H; rewrite H end);
    try (match goal with H : strptime _ = _ |- _ => rewrite H end);
    reflexivity.
Qed.

Lemma setBirthdate_pushes_witness :
  let r := setBirthdate strptime_dbY (BirthStr "12 Mar 1975") example_session in
  birthdate_pushed (calls_of r) = [mkdate 1975 3 12] /\ outcome_of r = Return tt.
Proof.
  pose proof (setBirthdate_pushes strptime_dbY (BirthStr "12 Mar 1975")
                example_session eq_refl) as (_ & _ & H & _).
  apply (H "12 Mar 1975" (mkdate 1975 3 12)).
  - reflexivity.
  - discriminate.
  - vm_compute. reflexivity.
Defined.

(** A string that is no date: the call raises [ValueError]. *)
Example setBirthdate_malformed :
  let r := setBirthdate strptime_dbY (BirthStr "1975-03-12") example_session in
  birthdate_pushed (calls_of r) = [] /\ outcome_of r = Raise ValueError.
Proof. vm_compute. split; reflexivity. Qed.

(** * The per-channel setters *)

Lemma check_edfsignal_pass edfsignal self :
  0 <= edfsignal <= Z.of_nat (n_channels self) ->
  check_edfsignal edfsignal self = (self, [], Return tt).
Proof.
  intros H. unfold check_edfsignal, mbind, M_bind, get_self.
  replace (edfsignal <? 0) with false by (symmetry; apply Z.ltb_ge; lia).
  replace (edfsignal >? Z.of_nat (n_channels self)) with false
    by (symmetry; rewrite Z.gtb_ltb; apply Z.ltb_ge; lia).
  reflexivity.
Qed.

Lemma check_edfsignal_fail edfsignal self :
  edfsignal < 0 \/ Z.of_nat (n_channels self) < edfsignal ->
  check_edfsignal edfsignal self = (self, [], Raise (ChannelDoesNotExist edfsignal)).
Proof.
  intros H. unfold check_edfsignal, mbind, M_bind, get_self.
  replace ((edfsignal <? 0) || (edfsignal >? Z.of_nat (n_channels self))) with true;
    [reflexivity |].
  symmetry. apply orb_true_iff. rewrite Z.gtb_ltb, !Z.ltb_lt. exact H.
Qed.

Lemma channels_setitem_outside i c self :
  py_index (channels self) i = None ->
  channels_setitem i c self = (self, [], Raise IndexError).
Proof.
  intros H. unfold channels_setitem, mbind, M_bind, get_self. rewrite H. reflexivity.
Qed.

Lemma channels_setkey_outside i upd self :
  py_index (channels self) i = None ->
  channels_setkey i upd self = (self, [], Raise IndexError).
Proof.
  intros H. unfold channels_setkey, channels_getitem, py_getitem, mbind, M_bind, get_self.
  rewrite H. reflexivity.
Qed.

(** An index below 0 or above [n_channels] is refused with
    [ChannelDoesNotExist], before anything is changed or pushed. *)
Lemma channel_setter_refused strptime m edfsignal self :
  edfsignal < 0 \/ Z.of_nat (n_channels self) < edfsignal ->
  run_channel_setter strptime m edfsignal self
  = (self, [], Raise (ChannelDoesNotExist edfsignal)).
Proof.
  intros H. destruct m; cbn [run_channel_setter];
    unfold setSignalHeader, setSamplefrequency, setPhysicalMaximum,
      setPhysicalMinimum, setDigitalMaximum, setDigitalMinimum, setLabel,
      setPhysicalDimension, setTransducer, setPrefilter;
    apply bind_Raise, check_edfsignal_fail, H.
Qed.

(** The index [n_channels] passes the test and fails in the list access. *)
Lemma channel_setter_at_n_channels strptime m self :
  session_inv self ->
  run_channel_setter strptime m (Z.of_nat (n_channels self)) self
  = (self, [], Raise IndexError).
Proof.
  intros Hinv.
  assert (Hout : py_index (channels self) (Z.of_nat (n_channels self)) = None)
    by (rewrite <- Hinv; apply py_index_length).
  assert (Hpass : check_edfsignal (Z.of_nat (n_channels self)) self = (self, [], Return tt))
    by (apply check_edfsignal_pass; lia).
  destruct m; cbn [run_channel_setter];
    unfold setSignalHeader, setSamplefrequency, setPhysicalMaximum,
      setPhysicalMinimum, setDigitalMaximum, setDigitalMinimum, setLabel,
      setPhysicalDimension, setTransducer, setPrefilter;
    (erewrite bind_Return by exact Hpass);
    (erewrite bind_Raise;
       [reflexivity
       | first [apply channels_setitem_outside | apply channels_setkey_outside];
         exact Hout]).
Qed.

(** An index from 0 to [n_channels - 1] is accepted: the dictionary at that
    index is replaced or updated, and the header is pushed. *)
Lemma channel_setter_accepted strptime m (i : nat) c self :
  session_inv self ->
  channels self !! i = Some c ->
  run_channel_setter strptime m (Z.of_nat i) self
  = (let self' := with_channels (<[i := setter_update m c]> (channels self)) self in
     (self', update_header_calls strptime self', update_header_outcome strptime self')).
Proof.
  intros Hinv Hc.
  pose proof (lookup_lt_Some _ _ _ Hc) as Hlt.
  assert (Hpass : check_edfsignal (Z.of_nat i) self = (self, [], Return tt))
    by (apply check_edfsignal_pass; rewrite <- Hinv; lia).
  assert (Hset : forall c', channels_setitem (Z.of_nat i) c' self
                 = (with_channels (<[i := c']> (channels self)) self, [], Return tt)).
  { intros c'. unfold channels_setitem, mbind, M_bind, get_self.
    rewrite py_index_nat by exact Hlt. reflexivity. }
  assert (Hkey : forall upd, channels_setkey (Z.of_nat i) upd self
                 = (with_channels (<[i := upd c]> (channels self)) self, [], Return tt)).
  { intros upd. unfold channels_setkey.
    erewrite bind_Return by (apply channels_getitem_lookup, Hc).
    rewrite Hset. reflexivity. }
  assert (Hupd : forall c', update_header strptime
                   (with_channels (<[i := c']> (channels self)) self)
                 = (let self' := with_channels (<[i := c']> (channels self)) self in
                    (self', update_header_calls strptime self',
                     update_header_outcome strptime self'))).
  { intros c'. apply update_header_run. unfold session_inv. cbn.
    rewrite length_insert. exact Hinv. }
  destruct m; cbn [run_channel_setter setter_update];
    unfold setSignalHeader, setSamplefrequency, setPhysicalMaximum,
      setPhysicalMinimum, setDigitalMaximum, setDigitalMinimum, setLabel,
      setPhysicalDimension, setTransducer, setPrefilter;
    (erewrite bind_Return by exact Hpass);
    (erewrite bind_Return by first [apply Hset | apply Hkey]);
    rewrite Hupd; reflexivity.
Qed.

(** C3. On a session of [n] channels, each of the ten per-channel setters
    called with the index [n] ends in [IndexError], not in
    [ChannelDoesNotExist]: the test [edfsignal > self.n_channels] lets the
    index through and the access [self.channels[n]] fails. The session is
    left unchanged and nothing is pushed. *)
Theorem channel_setter_index_n_raises_IndexError strptime m file_name n ft now h :
  let self := EdfWriter_init file_name n ft now h in
  run_channel_setter strptime m (Z.of_nat n) self = (self, [], Raise IndexError)
  /\ outcome_of (run_channel_setter strptime m (Z.of_nat n) self)
     <> Raise (ChannelDoesNotExist (Z.of_nat n)).
Proof.
  cbn zeta.
  pose proof (channel_setter_at_n_channels strptime m
                (EdfWriter_init file_name n ft now h) (init_inv _ _ _ _ _)) as H.
  rewrite init_n_channels in H. rewrite H. split; [reflexivity | discriminate].
Qed.

(** * [writeAnnotation] *)

(** A negative duration fails the test [duration_in_seconds >= 0]. *)
Lemma negative_not_leb (d : float) :
  PrimFloat.ltb d 0%float = true -> PrimFloat.leb 0%float d = false.
Proof.
  rewrite ltb_spec, leb_spec.
  change (Prim2SF 0%float) with (S754_zero false).
  destruct (Prim2SF d) as [s | s | | s m e]; try destruct s; cbn; congruence.
Qed.

(** C5. Every annotation call that [writeAnnotation] makes carries the
    onset as [round(onset * 10000)] ticks; its duration is
    [round(duration * 10000)] ticks when the duration is at least 0, and -1
    when the duration is negative. The call is made whenever the text can be
    encoded. An onset of 1.23456 s is 12346 ticks and a duration of 0.5 s is
    5000 ticks. *)
Theorem writeAnnotation_ticks onset dur desc fmt self :
  let r := writeAnnotation onset dur desc fmt self in
  self_after r = self
  /\ (forall c, c ∈ calls_of r ->
        exists d, annotation_ticks c = Some (ticks onset, d)
                  /\ (PrimFloat.leb 0%float dur = true -> d = ticks dur)
                  /\ (PrimFloat.ltb dur 0%float = true -> d = -1))
  /\ (fmt = "utf-8" \/ is_Some (encode_latin1 desc) ->
        exists c, calls_of r = [c] /\ outcome_of r = Return tt)
  /\ ticks 1.23456%float = 12346
  /\ ticks 0.5%float = 5000
  /\ calls_of (writeAnnotation 1.23456%float (-1)%float desc "utf-8" self)
     = [write_annotation_utf8 12346 (-1) desc]
  /\ calls_of (writeAnnotation 1.23456%float 0.5%float desc "utf-8" self)
     = [write_annotation_utf8 12346 5000 desc].
Proof.
  cbn zeta.
  split; [| split; [| split; [| split; [| split; [| split]]]]].
  4, 5: vm_compute; reflexivity.
  4, 5: unfold writeAnnotation; cbn [String.eqb Ascii.eqb Bool.eqb];
        unfold calls_of, call; cbn [fst snd]; do 2 f_equal; vm_compute; reflexivity.
  all: unfold writeAnnotation, ticks.
  - destruct (String.eqb fmt "utf-8"), (PrimFloat.leb 0%float dur);
      try destruct (encode_latin1 desc); reflexivity.
  - intros c Hc.
    destruct (PrimFloat.leb 0%float dur) eqn:Hle;
      [exists (astype_int (np_round (dur * 10000)%float)) | exists (-1)];
      (destruct (String.eqb fmt "utf-8");
       [| destruct (encode_latin1 desc)];
       cbn in Hc;
       [ apply list_elem_of_singleton in Hc; subst c
       | apply list_elem_of_singleton in Hc; subst c
       | apply elem_of_nil in Hc; destruct Hc ];
       (split; [reflexivity |]); split; intros H;
       try reflexivity; try discriminate;
       apply negative_not_leb in H; congruence).
  - intros [-> | [b Hb]].
    + cbn [String.eqb Ascii.eqb Bool.eqb].
      destruct (PrimFloat.leb 0%float dur); eexists; split; reflexivity.
    + rewrite Hb.
      destruct (String.eqb fmt "utf-8"), (PrimFloat.leb 0%float dur);
        eexists; split; reflexivity.
Qed.

(** * [writeSamples] *)

(** C4. When the number of sample sequences differs from the number of
    channels of the session, [writeSamples] raises [WrongInputSize]; no
    codec call is made and the object is unchanged. *)
Theorem writeSamples_wrong_input_size data_list fuel self :
  session_inv self ->
  length data_list <> n_channels self ->
  writeSamples data_list fuel self
  = (self, [], Raise (WrongInputSize (length data_list))).
Proof.
  intros Hinv Hne. unfold writeSamples, mbind, M_bind, get_self.
  rewrite Hinv. apply Nat.eqb_neq in Hne. rewrite Hne. reflexivity.
Qed.

Lemma writeSamples_wrong_input_size_witness :
  writeSamples [[1%float; 2%float]; [3%float]] 5 example_session
  = (example_session, [], Raise (WrongInputSize 2)).
Proof.
  apply (writeSamples_wrong_input_size [[1%float; 2%float]; [3%float]] 5
           example_session).
  - reflexivity.
  - cbn. lia.
Defined.

(** ** The loops of [writeSamples], one by one *)

Lemma samples_lookup (data_list : list (list float)) i d :
  data_list !! i = Some d -> samples data_list i = d.
Proof. intros H. unfold samples. rewrite H. reflexivity. Qed.

Lemma rate_lookup self i c :
  channels self !! i = Some c -> rate self i = sample_rate c.
Proof. intros H. unfold rate. rewrite H. reflexivity. Qed.

Section MultiplexerFacts.

Variable self : EdfWriter.
Variable data_list : list (list float).
Hypothesis Hlen : length data_list = length (channels self).

Local Abbreviation n := (length data_list).
Local Abbreviation rate := (rate self).
Local Abbreviation samples := (samples data_list).

Lemma data_lookup i : (i < n)%nat -> data_list !! i = Some (samples i).
Proof.
  intros H. destruct (lookup_lt_is_Some_2 data_list i H) as [d Hd].
  rewrite Hd, (samples_lookup _ _ _ Hd). reflexivity.
Qed.

Lemma channel_lookup i :
  (i < n)%nat -> exists c, channels self !! i = Some c /\ sample_rate c = rate i.
Proof.
  intros H. rewrite Hlen in H.
  destruct (lookup_lt_is_Some_2 _ i H) as [c Hc].
  exists c. split; [exact Hc |]. rewrite (rate_lookup _ _ _ Hc). reflexivity.
Qed.

Lemma cursor_lookup (ind : list nat) i :
  (i < length ind)%nat -> ind !! i = Some (cursor ind i).
Proof.
  intros H. unfold cursor.
  destruct (lookup_lt_is_Some_2 ind i H) as [k Hk]. rewrite Hk. reflexivity.
Qed.

(** The first loop: a cursor 0 per channel. *)
Lemma ind_loop_run (l : list nat) : forall acc,
  for_in l ind_body acc self = (self, [], Return (acc ++ replicate (length l) 0%nat)).
Proof.
  induction l as [| i l IH]; intros acc; cbn [for_in length replicate].
  - rewrite app_nil_r. reflexivity.
  - erewrite bind_Return by reflexivity. rewrite IH, <- app_assoc. reflexivity.
Qed.

Lemma cursors_0 : cursors self data_list 0 = replicate n 0%nat.
Proof.
  assert (H : forall l : list nat,
             map (fun i => (0 * rate i)%nat) l = replicate (length l) 0%nat).
  { induction l as [| i l IH]; [reflexivity |]. cbn. f_equal. exact IH. }
  unfold cursors. rewrite H, length_seq. reflexivity.
Qed.

(** The test loop computes [all_full]. *)
Lemma check_body_run ind i b :
  (i < n)%nat -> (i < length ind)%nat ->
  check_body data_list ind i b self
  = (self, [],
     Return (b && negb (length (samples i) <? cursor ind i + rate i)%nat)).
Proof.
  intros Hi Hind. unfold check_body.
  destruct (channel_lookup i Hi) as (c & Hc & Hrate).
  erewrite bind_Return by (apply py_getitem_lookup, data_lookup, Hi).
  erewrite bind_Return by (apply py_getitem_lookup, cursor_lookup, Hind).
  erewrite bind_Return by (apply channels_getitem_lookup, Hc).
  rewrite Hrate.
  destruct (length (samples i) <? cursor ind i + rate i)%nat, b; reflexivity.
Qed.

Lemma check_loop_run ind (l : list nat) : forall b,
  Forall (fun i => (i < n)%nat) l -> length ind = n ->
  for_in l (check_body data_list ind) b self
  = (self, [],
     Return (b && forallb (fun i => negb (length (samples i) <? cursor ind i + rate i)%nat) l)).
Proof.
  induction l as [| i l IH]; intros b Hl Hind; cbn [for_in forallb].
  - rewrite andb_true_r. reflexivity.
  - apply Forall_cons in Hl as [Hi Hl].
    erewrite bind_Return by (apply check_body_run; [exact Hi | rewrite Hind; exact Hi]).
    rewrite IH by assumption. rewrite andb_assoc. reflexivity.
Qed.

Lemma seq_below a k : Forall (fun i => (i < a + k)%nat) (seq a k).
Proof. apply Forall_forall. intros i Hi. apply elem_of_seq in Hi. lia. Qed.

Lemma check_run ind b :
  length ind = n ->
  for_arange n (check_body data_list ind) b self
  = (self, [], Return (b && all_full self data_list ind)).
Proof. intros Hind. apply check_loop_run; [apply (seq_below 0) | exact Hind]. Qed.

(** One turn of a round, and the round. *)
Lemma round_body_run ind i :
  (i < n)%nat -> (i < length ind)%nat ->
  round_body data_list i ind self
  = (self,
     [write_physical_samples i
        (py_slice (samples i) (cursor ind i) (cursor ind i + rate i))],
     Return (advance_at self ind i)).
Proof.
  intros Hi Hind. unfold round_body, writePhysicalSamples.
  destruct (channel_lookup i Hi) as (c & Hc & Hrate).
  erewrite bind_Return by (apply py_getitem_lookup, data_lookup, Hi).
  erewrite bind_Return by (apply py_getitem_lookup, cursor_lookup, Hind).
  erewrite bind_Return by (apply channels_getitem_lookup, Hc).
  erewrite bind_Return by reflexivity.
  erewrite bind_Return by (apply py_getitem_lookup, cursor_lookup, Hind).
  erewrite bind_Return by (apply channels_getitem_lookup, Hc).
  rewrite Hrate. reflexivity.
Qed.

Lemma length_advance_at ind i : length (advance_at self ind i) = length ind.
Proof. apply length_insert. Qed.

Lemma cursor_advance_at_ne ind i j :
  i <> j -> cursor (advance_at self ind i) j = cursor ind j.
Proof.
  intros H. unfold cursor, advance_at. rewrite list_lookup_insert_ne by exact H.
  reflexivity.
Qed.

Lemma cursor_advance_at_eq ind i :
  (i < length ind)%nat ->
  cursor (advance_at self ind i) i = (cursor ind i + rate i)%nat.
Proof.
  intros H. unfold cursor at 1. unfold advance_at.
  rewrite list_lookup_insert_eq by exact H. reflexivity.
Qed.

Lemma round_loop_run k : forall a ind,
  (a + k <= n)%nat -> length ind = n ->
  for_in (seq a k) (round_body data_list) ind self
  = (self,
     map (fun i => write_physical_samples i
                     (py_slice (samples i) (cursor ind i) (cursor ind i + rate i)))
       (seq a k),
     Return (foldl (advance_at self) ind (seq a k))).
Proof.
  induction k as [| k IH]; intros a ind Hk Hind; [reflexivity |].
  cbn [seq for_in map foldl].
  erewrite bind_Return by (apply round_body_run; lia).
  rewrite IH by (rewrite ?length_advance_at; lia).
  unfold self_after, calls_of, outcome_of. cbn [fst snd app].
  f_equal. f_equal. f_equal.
  apply map_ext_in. intros i Hi. apply in_seq in Hi.
  rewrite cursor_advance_at_ne by lia. reflexivity.
Qed.

Lemma round_run ind :
  length ind = n ->
  for_arange n (round_body data_list) ind self
  = (self, round_calls self data_list ind, Return (advance self data_list ind)).
Proof. intros Hind. apply round_loop_run; [lia | exact Hind]. Qed.

(** What [advance] does to the cursors. *)
Lemma length_foldl_advance_at l : forall ind,
  length (foldl (advance_at self) ind l) = length ind.
Proof.
  induction l as [| i l IH]; intros ind; [reflexivity |].
  cbn [foldl]. rewrite IH. apply length_advance_at.
Qed.

Lemma length_advance ind : length (advance self data_list ind) = length ind.
Proof. apply length_foldl_advance_at. Qed.

Lemma cursor_foldl_advance_at k : forall a ind j,
  (a + k <= length ind)%nat ->
  cursor (foldl (advance_at self) ind (seq a k)) j
  = if ((a <=? j) && (j <? a + k))%nat
    then (cursor ind j + rate j)%nat else cursor ind j.
Proof.
  induction k as [| k IH]; intros a ind j Hk; cbn [seq foldl].
  - replace ((a <=? j) && (j <? a + 0))%nat with false; [reflexivity |].
    symmetry. apply andb_false_iff. rewrite Nat.leb_gt, Nat.ltb_ge. lia.
  - rewrite IH by (rewrite length_advance_at; lia).
    destruct (decide (j = a)) as [-> | Hne].
    + replace ((S a <=? a) && (a <? S a + k))%nat with false
        by (symmetry; apply andb_false_iff; rewrite Nat.leb_gt; lia).
      replace ((a <=? a) && (a <? a + S k))%nat with true
        by (symmetry; apply andb_true_iff; rewrite Nat.leb_le, Nat.ltb_lt; lia).
      apply cursor_advance_at_eq. lia.
    + rewrite !cursor_advance_at_ne by congruence.
      replace ((S a <=? j) && (j <? S a + k))%nat
        with ((a <=? j) && (j <? a + S k))%nat; [reflexivity |].
      apply eq_true_iff_eq. rewrite !andb_true_iff, !Nat.leb_le, !Nat.ltb_lt. lia.
Qed.

Lemma cursor_advance ind i :
  length ind = n -> (i < n)%nat ->
  cursor (advance self data_list ind) i = (cursor ind i + rate i)%nat.
Proof.
  intros Hind Hi. unfold advance. rewrite cursor_foldl_advance_at by lia.
  replace ((0 <=? i) && (i <? 0 + n))%nat with true; [reflexivity |].
  symmetry. apply andb_true_iff. rewrite Nat.leb_le, Nat.ltb_lt. lia.
Qed.

Lemma cursors_eq (l1 l2 : list nat) :
  length l1 = length l2 ->
  (forall i, (i < length l1)%nat -> cursor l1 i = cursor l2 i) -> l1 = l2.
Proof.
  intros Hl H. apply list_eq. intros i.
  destruct (decide (i < length l1)%nat) as [Hi | Hi].
  - rewrite (cursor_lookup l1 i Hi), (cursor_lookup l2 i) by lia.
    f_equal. apply H, Hi.
  - rewrite !lookup_ge_None_2 by lia. reflexivity.
Qed.

Lemma length_cursors k : length (cursors self data_list k) = n.
Proof. unfold cursors. rewrite length_map, length_seq. reflexivity. Qed.

Lemma cursor_cursors k i :
  (i < n)%nat -> cursor (cursors self data_list k) i = (k * rate i)%nat.
Proof.
  intros Hi. unfold cursor, cursors.
  rewrite list_lookup_fmap, lookup_seq_lt by exact Hi. reflexivity.
Qed.

Lemma advance_cursors k :
  advance self data_list (cursors self data_list k) = cursors self data_list (S k).
Proof.
  apply cursors_eq.
  - rewrite length_advance, !length_cursors. reflexivity.
  - intros i Hi. rewrite length_advance, length_cursors in Hi.
    rewrite cursor_advance by (rewrite ?length_cursors; lia).
    rewrite !cursor_cursors by exact Hi. lia.
Qed.

(** [all_full] in words. *)
Lemma all_full_true ind :
  all_full self data_list ind = true
  <-> forall i, (i < n)%nat -> (cursor ind i + rate i <= length (samples i))%nat.
Proof.
  unfold all_full. rewrite forallb_forall. split.
  - intros H i Hi. specialize (H i). rewrite in_seq in H.
    specialize (H ltac:(lia)). apply negb_true_iff, Nat.ltb_ge in H. exact H.
  - intros H i Hi. apply in_seq in Hi.
    apply negb_true_iff, Nat.ltb_ge, H. lia.
Qed.

Lemma all_full_false ind i :
  (i < n)%nat -> (length (samples i) < cursor ind i + rate i)%nat ->
  all_full self data_list ind = false.
Proof.
  intros Hi Hshort. apply not_true_is_false. intros H.
  rewrite all_full_true in H. specialize (H i Hi). lia.
Qed.

Lemma all_full_cursors k :
  all_full self data_list (cursors self data_list k) = true
  <-> forall i, (i < n)%nat -> ((k + 1) * rate i <= length (samples i))%nat.
Proof.
  rewrite all_full_true. split; intros H i Hi; specialize (H i Hi);
    rewrite cursor_cursors in * by exact Hi; lia.
Qed.

(** A record cut where every channel is full has [sample_rate] samples. *)
Lemma length_py_slice (d : list float) a r :
  (a + r <= length d)%nat -> length (py_slice d a (a + r)) = r.
Proof.
  intros H. unfold py_slice. rewrite length_take, length_drop. lia.
Qed.

Lemma round_calls_full ind :
  all_full self data_list ind = true ->
  Forall (full_record self) (round_calls self data_list ind).
Proof.
  intros Hfull. rewrite all_full_true in Hfull.
  unfold round_calls. apply Forall_forall. intros c Hc.
  apply list_elem_of_fmap in Hc as (i & -> & Hi).
  apply elem_of_seq in Hi.
  destruct (channel_lookup i ltac:(lia)) as (ch & Hch & Hrate).
  exists ch. split; [exact Hch |].
  rewrite Hrate. apply length_py_slice, Hfull. lia.
Qed.

(** The [while] loop: it stops at once when a channel is short, and else
    runs a round and starts again from the advanced cursors. *)
Lemma while_stop fuel ind :
  while_notAtEnd data_list fuel false ind self = (self, [], Return ind).
Proof. destruct fuel; reflexivity. Qed.

Lemma while_step fuel ind :
  length ind = n ->
  while_notAtEnd data_list (S fuel) true ind self
  = (let r := while_notAtEnd data_list fuel
                (all_full self data_list (advance self data_list ind))
                (advance self data_list ind) self in
     (self_after r, round_calls self data_list ind ++ calls_of r, outcome_of r)).
Proof.
  intros Hind. cbn [while_notAtEnd].
  erewrite bind_Return by (apply round_run, Hind).
  erewrite bind_Return by (apply check_run; rewrite length_advance; exact Hind).
  unfold self_after, calls_of, outcome_of. cbn [fst snd andb app].
  destruct (while_notAtEnd _ _ _ _ _) as [[s l] o]. reflexivity.
Qed.

(** With [k] full rounds in the data, the loop runs them and stops. *)
Lemma while_rounds k : forall d j fuel,
  (j + d = k)%nat -> (d <= fuel)%nat -> full_rounds self data_list k ->
  while_notAtEnd data_list fuel
    (all_full self data_list (cursors self data_list j))
    (cursors self data_list j) self
  = (self,
     concat (map (fun t => round_calls self data_list (cursors self data_list t))
               (seq j d)),
     Return (cursors self data_list k)).
Proof.
  induction d as [| d IH]; intros j fuel Hj Hfuel Hk.
  - assert (j = k) by lia. subst j.
    destruct Hk as (_ & i & Hi & Hshort).
    rewrite (all_full_false _ i Hi)
      by (rewrite cursor_cursors by exact Hi; lia).
    apply while_stop.
  - destruct Hk as (Hall & Hshort).
    assert (Hfull : all_full self data_list (cursors self data_list j) = true).
    { apply all_full_cursors. intros i Hi. specialize (Hall i Hi). nia. }
    rewrite Hfull. destruct fuel as [| fuel]; [lia |].
    rewrite while_step by apply length_cursors.
    rewrite advance_cursors.
    rewrite (IH (S j) fuel) by (first [lia | split; assumption]).
    reflexivity.
Qed.

(** Whatever the data, the loop leaves the object alone, writes full
    records only, and hands on one cursor per channel. *)
Lemma while_full_records fuel : forall ind,
  length ind = n ->
  let r := while_notAtEnd data_list fuel (all_full self data_list ind) ind self in
  self_after r = self
  /\ Forall (full_record self) (calls_of r)
  /\ (forall ind', outcome_of r = Return ind' -> length ind' = n).
Proof.
  induction fuel as [| fuel IH]; intros ind Hind; cbn zeta;
    destruct (all_full self data_list ind) eqn:Hfull.
  - cbn. repeat split; [constructor | discriminate].
  - rewrite while_stop. cbn. repeat split; [constructor |].
    intros ind' [= <-]. exact Hind.
  - rewrite while_step by exact Hind. cbn zeta.
    destruct (IH (advance self data_list ind)) as (Hs & Hl & Ho);
      [rewrite length_advance; exact Hind |].
    unfold self_after, calls_of, outcome_of in *. cbn [fst snd].
    split; [exact Hs |]. split; [| exact Ho].
    apply Forall_app. split; [apply round_calls_full, Hfull | exact Hl].
  - rewrite while_stop. cbn. repeat split; [constructor |].
    intros ind' [= <-]. exact Hind.
Qed.

(** Reading a list at a loop index, in or out of its bounds. *)
Lemma py_getitem_nat {A} (l : list A) (i : nat) s :
  py_getitem l (Z.of_nat i) s
  = (s, [], match l !! i with Some a => Return a | None => Raise IndexError end).
Proof.
  destruct (l !! i) as [a |] eqn:Hl; [apply py_getitem_lookup, Hl |].
  apply lookup_ge_None in Hl. unfold py_getitem, py_index.
  replace (Z.of_nat i <? Z.of_nat (length l)) with false
    by (symmetry; apply Z.ltb_ge; lia).
  replace (Z.of_nat i <? 0) with false by (symmetry; apply Z.ltb_ge; lia).
  rewrite andb_false_r. reflexivity.
Qed.

Lemma channels_getitem_nat (i : nat) s :
  channels_getitem (Z.of_nat i) s
  = (s, [], match channels s !! i with
            | Some c => Return c
            | None => Raise IndexError
            end).
Proof.
  unfold channels_getitem. erewrite bind_Return by reflexivity.
  rewrite py_getitem_nat. reflexivity.
Qed.

(** The slice assignment keeps the length of the array. *)
Lemma np_assign_prefix_fits (a : list float) r src s :
  length src = r -> (r <= length a)%nat ->
  np_assign_prefix a r src s = (s, [], Return (src ++ drop r a)).
Proof.
  intros Hsrc Hr. unfold np_assign_prefix.
  rewrite Nat.min_l by exact Hr. rewrite Hsrc, Nat.eqb_refl. reflexivity.
Qed.

Lemma np_assign_prefix_length (a : list float) r src s :
  self_after (np_assign_prefix a r src s) = s
  /\ calls_of (np_assign_prefix a r src s) = []
  /\ (forall a', outcome_of (np_assign_prefix a r src s) = Return a' ->
        length a' = length a).
Proof.
  unfold np_assign_prefix.
  destruct (Nat.eqb (length src) (Nat.min r (length a))) eqn:Heq.
  - apply Nat.eqb_eq in Heq. cbn. repeat split.
    intros a' [= <-]. rewrite length_app, length_drop. lia.
  - destruct src as [| x [| y src]]; cbn; repeat split; try discriminate.
    intros a' [= <-]. rewrite length_app, length_replicate, length_drop. lia.
Qed.

(** The last loop writes full records only, whatever the cursors. *)
Lemma last_body_quiet ind i x :
  quiet_at (full_record self) (last_body data_list ind i x) self.
Proof.
  unfold last_body, quiet_at, mbind, M_bind.
  rewrite channels_getitem_nat.
  destruct (channels self !! i) as [c |] eqn:Hc; [| split; [reflexivity | constructor]].
  rewrite py_getitem_nat.
  destruct (data_list !! i) as [d |]; [| split; [reflexivity | constructor]].
  rewrite py_getitem_nat.
  destruct (ind !! i) as [k |]; [| split; [reflexivity | constructor]].
  destruct (Z.of_nat (length d) - Z.of_nat k >? 0);
    [| split; [reflexivity | constructor]].
  destruct (np_assign_prefix_length (np_zeros (sample_rate c))
              (Z.to_nat (Z.of_nat (length d) - Z.of_nat k))
              (py_last d (Z.to_nat (Z.of_nat (length d) - Z.of_nat k))) self)
    as (Hs & Hl & Ho).
  destruct (np_assign_prefix _ _ _ self) as [[s1 l1] [a' | e |]];
    unfold self_after, calls_of, outcome_of in *; cbn [fst snd] in *; subst.
  - cbn. split; [reflexivity |]. repeat constructor.
    exists c. split; [exact Hc |].
    rewrite (Ho a' eq_refl). apply length_replicate.
  - split; [reflexivity | constructor].
  - split; [reflexivity | constructor].
Qed.

Lemma last_loop_quiet ind l x :
  quiet_at (full_record self) (for_in l (last_body data_list ind) x) self.
Proof. apply quiet_at_for_in. intros i y. apply last_body_quiet. Qed.

(** The last loop after [k] rounds, when no channel holds more than one
    record past its cursor. *)
Lemma last_body_run k i :
  (i < n)%nat ->
  (k * rate i <= length (samples i))%nat ->
  (length (samples i) <= (k + 1) * rate i)%nat ->
  last_body data_list (cursors self data_list k) i tt self
  = (self,
     if (k * rate i <? length (samples i))%nat
     then [write_physical_samples i
             (drop (k * rate i) (samples i)
              ++ np_zeros ((k + 1) * rate i - length (samples i)))]
     else [],
     Return tt).
Proof.
  intros Hi Hlow Hhigh. unfold last_body, writePhysicalSamples.
  destruct (channel_lookup i Hi) as (c & Hc & Hrate).
  erewrite bind_Return by (apply channels_getitem_lookup, Hc).
  erewrite bind_Return by (apply py_getitem_lookup, data_lookup, Hi).
  erewrite bind_Return
    by (apply py_getitem_lookup, cursor_lookup; rewrite length_cursors; exact Hi).
  rewrite cursor_cursors by exact Hi. rewrite Hrate.
  destruct (k * rate i <? length (samples i))%nat eqn:Hlt.
  - apply Nat.ltb_lt in Hlt.
    replace (Z.of_nat (length (samples i)) - Z.of_nat (k * rate i) >? 0) with true
      by (symmetry; apply Z.gtb_lt; lia).
    replace (Z.to_nat (Z.of_nat (length (samples i)) - Z.of_nat (k * rate i)))
      with (length (samples i) - k * rate i)%nat by lia.
    erewrite bind_Return.
    2:{ apply np_assign_prefix_fits.
        - unfold py_last. rewrite length_drop. lia.
        - unfold np_zeros. rewrite length_replicate. lia. }
    unfold self_after, calls_of, outcome_of, call. cbn [fst snd app].
    f_equal. f_equal. f_equal. f_equal.
    unfold py_last, np_zeros. rewrite drop_replicate.
    f_equal; f_equal; lia.
  - apply Nat.ltb_ge in Hlt.
    replace (Z.of_nat (length (samples i)) - Z.of_nat (k * rate i) >? 0) with false
      by (symmetry; rewrite Z.gtb_ltb; apply Z.ltb_ge; lia).
    reflexivity.
Qed.

Lemma for_in_unit_run (body : nat -> unit -> M unit)
    (g : nat -> list codec_call) (l : list nat) :
  (forall i, i ∈ l -> body i tt self = (self, g i, Return tt)) ->
  for_in l body tt self = (self, flat_map g l, Return tt).
Proof.
  induction l as [| i l IH]; intros Hb; [reflexivity |].
  cbn [for_in flat_map].
  erewrite bind_Return by (apply Hb; left).
  rewrite IH by (intros j Hj; apply Hb; right; exact Hj).
  reflexivity.
Qed.

Lemma last_loop_run k :
  (forall i, (i < n)%nat -> (k * rate i <= length (samples i))%nat) ->
  (forall i, (i < n)%nat -> (length (samples i) <= (k + 1) * rate i)%nat) ->
  for_arange n (last_body data_list (cursors self data_list k)) tt self
  = (self, last_calls self data_list k, Return tt).
Proof.
  intros Hlow Hhigh. unfold for_arange, last_calls.
  apply for_in_unit_run. intros i Hi. apply elem_of_seq in Hi.
  apply last_body_run; [lia | apply Hlow; lia | apply Hhigh; lia].
Qed.

(** [writeSamples] up to its last loop, with [k] full rounds in the data. *)
Lemma writeSamples_rounds fuel k :
  full_rounds self data_list k -> (k <= fuel)%nat ->
  writeSamples data_list fuel self
  = (let last := for_arange n (last_body data_list (cursors self data_list k)) tt self in
     (self_after last, rounds self data_list k ++ calls_of last, outcome_of last)).
Proof.
  intros Hk Hfuel. unfold writeSamples.
  erewrite bind_Return by reflexivity.
  rewrite Hlen, Nat.eqb_refl. cbn [negb]. rewrite <- Hlen.
  erewrite bind_Return by apply ind_loop_run.
  cbn [app]. rewrite length_seq, <- cursors_0.
  erewrite bind_Return by (apply check_run, length_cursors).
  cbn [andb].
  erewrite bind_Return by (apply (while_rounds k k 0 fuel); [lia | lia | exact Hk]).
  unfold self_after, calls_of, outcome_of, rounds. cbn [fst snd app].
  destruct (for_arange _ _ _ _) as [[s l] o]. reflexivity.
Qed.

(** The whole of [writeSamples] leaves the object alone and writes full
    records only. *)
Lemma writeSamples_quiet fuel :
  quiet_at (full_record self) (writeSamples data_list fuel) self.
Proof.
  assert (E : writeSamples data_list fuel self
              = (while_notAtEnd data_list fuel
                   (all_full self data_list (cursors self data_list 0))
                   (cursors self data_list 0)
                 ≫= (fun ind' => for_arange n (last_body data_list ind') tt)) self).
  { unfold writeSamples.
    erewrite bind_Return by reflexivity.
    rewrite Hlen, Nat.eqb_refl. cbn [negb]. rewrite <- Hlen.
    erewrite bind_Return by apply ind_loop_run.
    cbn [app]. rewrite length_seq, <- cursors_0.
    erewrite bind_Return by (apply check_run, length_cursors).
    cbn [andb app].
    match goal with
    | |- _ = ?x => destruct x as [[s l] o]
    end. reflexivity. }
  unfold quiet_at. rewrite E.
  destruct (while_full_records fuel (cursors self data_list 0) (length_cursors 0))
    as (Hs & Hl & _).
  apply (quiet_at_bind (full_record self)); [split; assumption |].
  intros ind' _. apply last_loop_quiet.
Qed.

(** The number of rounds: when some channel has a positive rate, the data
    hold some number of full rounds, and only one. *)
Lemma forallb_false_ex {A} (f : A -> bool) (l : list A) :
  forallb f l = false -> exists x, In x l /\ f x = false.
Proof.
  induction l as [| a l IH]; cbn; [discriminate |].
  destruct (f a) eqn:Hfa; cbn.
  - intros H. destruct (IH H) as (x & Hx & Hfx). exists x. auto.
  - intros _. exists a. auto.
Qed.

Lemma full_rounds_search i0 :
  (i0 < n)%nat -> (0 < rate i0)%nat ->
  forall m k,
    (forall i, (i < n)%nat -> (k * rate i <= length (samples i))%nat) ->
    (length (samples i0) < k + m)%nat ->
    exists k', full_rounds self data_list k'.
Proof.
  intros Hi0 Hrate. induction m as [| m IH]; intros k Hk Hm.
  - specialize (Hk i0 Hi0). nia.
  - destruct (all_full self data_list (cursors self data_list k)) eqn:Hfull.
    + apply (IH (S k)); [| lia].
      rewrite all_full_cursors in Hfull. intros i Hi. specialize (Hfull i Hi). lia.
    + unfold all_full in Hfull. apply forallb_false_ex in Hfull as (i & Hi & Hshort).
      apply in_seq in Hi. apply negb_false_iff, Nat.ltb_lt in Hshort.
      rewrite cursor_cursors in Hshort by lia.
      exists k. split; [exact Hk |]. exists i. split; [lia | lia].
Qed.

Lemma full_rounds_exists :
  (exists i, (i < n)%nat /\ (0 < rate i)%nat) ->
  exists k, full_rounds self data_list k.
Proof.
  intros (i0 & Hi0 & Hrate).
  apply (full_rounds_search i0 Hi0 Hrate (S (length (samples i0))) 0); [| lia].
  intros i _. lia.
Qed.

Lemma full_rounds_unique k k' :
  full_rounds self data_list k -> full_rounds self data_list k' -> k = k'.
Proof.
  intros (Hall & i & Hi & Hshort) (Hall' & i' & Hi' & Hshort').
  specialize (Hall i' Hi'). specialize (Hall' i Hi). nia.
Qed.

(** The rounds, spelled out. *)
Lemma rounds_spelled k :
  rounds self data_list k
  = concat (map (fun j =>
                   map (fun i => write_physical_samples i
                                   (py_slice (samples i) (j * rate i) ((j + 1) * rate i)))
                     (seq 0 n))
              (seq 0 k)).
Proof.
  unfold rounds, round_calls. f_equal. apply map_ext. intros j.
  apply map_ext_in. intros i Hi. apply in_seq in Hi.
  rewrite cursor_cursors by lia. do 2 f_equal. lia.
Qed.

(** The records that the last loop writes for channel [i]. *)
Lemma records_for_last_calls k i :
  (i < n)%nat ->
  records_for i (last_calls self data_list k)
  = if (k * rate i <? length (samples i))%nat
    then [drop (k * rate i) (samples i)
          ++ np_zeros ((k + 1) * rate i - length (samples i))]
    else [].
Proof.
  intros Hi. unfold last_calls.
  assert (H : forall m a, (a <= i < a + m)%nat \/ (i < a)%nat \/ (a + m <= i)%nat ->
            records_for i
              (flat_map (fun j =>
                 if (k * rate j <? length (samples j))%nat
                 then [write_physical_samples j
                         (drop (k * rate j) (samples j)
                          ++ np_zeros ((k + 1) * rate j - length (samples j)))]
                 else []) (seq a m))
            = if ((a <=? i) && (i <? a + m))%nat
              then (if (k * rate i <? length (samples i))%nat
                    then [drop (k * rate i) (samples i)
                          ++ np_zeros ((k + 1) * rate i - length (samples i))]
                    else [])
              else []).
  { induction m as [| m IH]; intros a _.
    - cbn [seq flat_map records_for omap].
      replace ((a <=? i) && (i <? a + 0))%nat with false; [reflexivity |].
      symmetry. apply andb_false_iff. rewrite Nat.leb_gt, Nat.ltb_ge. lia.
    - cbn [seq flat_map]. unfold records_for at 1. rewrite omap_app.
      fold (records_for i (flat_map (fun j =>
                 if (k * rate j <? length (samples j))%nat
                 then [write_physical_samples j
                         (drop (k * rate j) (samples j)
                          ++ np_zeros ((k + 1) * rate j - length (samples j)))]
                 else []) (seq (S a) m))).
      rewrite IH by lia.
      destruct (decide (i = a)) as [-> | Hne].
      + replace ((S a <=? a) && (a <? S a + m))%nat with false
          by (symmetry; apply andb_false_iff; rewrite Nat.leb_gt; lia).
        replace ((a <=? a) && (a <? a + S m))%nat with true
          by (symmetry; apply andb_true_iff; rewrite Nat.leb_le, Nat.ltb_lt; lia).
        rewrite app_nil_r.
        destruct (k * rate a <? length (samples a))%nat; [| reflexivity].
        cbn. rewrite Nat.eqb_refl. reflexivity.
      + replace ((a <=? i) && (i <? a + S m))%nat
          with ((S a <=? i) && (i <? S a + m))%nat
          by (apply eq_true_iff_eq;
              rewrite !andb_true_iff, !Nat.leb_le, !Nat.ltb_lt; lia).
        destruct (k * rate a <? length (samples a))%nat; [| reflexivity].
        cbn. apply Nat.eqb_neq in Hne. rewrite Hne. reflexivity. }
  rewrite H by lia.
  replace ((0 <=? i) && (i <? 0 + n))%nat with true; [reflexivity |].
  symmetry. apply andb_true_iff. rewrite Nat.leb_le, Nat.ltb_lt. lia.
Qed.

End MultiplexerFacts.

(** C10. Every buffer that [writeSamples] hands to [write_physical_samples]
    has as many samples as the [sample_rate] of the channel it is written
    for: this holds of the records of the rounds and of the last records,
    for every object and every input, however long the loop runs and
    however the call ends. *)
Theorem writeSamples_full_records self data_list fuel :
  Forall (full_record self) (calls_of (writeSamples data_list fuel self)).
Proof.
  destruct (decide (length data_list = length (channels self))) as [Hlen | Hne].
  - apply writeSamples_quiet, Hlen.
  - unfold writeSamples, mbind, M_bind, get_self.
    apply Nat.eqb_neq in Hne. rewrite Hne. constructor.
Qed.

(** C2. Given one sample sequence per channel, some channel having a
    positive rate, there is a number [k] of rounds such that every channel
    holds [k] full records and some channel holds no more; with fuel for
    [k] rounds [writeSamples] leaves the object unchanged and makes the
    calls of rounds [0] to [k - 1], then those of its last loop. Round [j]
    writes for the channels [0], [1], ... in this order, for channel [i] the
    samples from [j * sample_rate i] up to [(j + 1) * sample_rate i], a full
    record; after it the cursors are those of round [j + 1]. *)
Theorem writeSamples_round_robin self data_list :
  length data_list = length (channels self) ->
  (exists i, (i < length data_list)%nat /\ (0 < rate self i)%nat) ->
  exists k,
    full_rounds self data_list k
    /\ (forall k', full_rounds self data_list k' -> k' = k)
    /\ (forall fuel, (k <= fuel)%nat ->
          let last := for_arange (length data_list)
                        (last_body data_list (cursors self data_list k)) tt self in
          writeSamples data_list fuel self
          = (self, rounds self data_list k ++ calls_of last, outcome_of last))
    /\ rounds self data_list k
       = concat (map (fun j =>
                   map (fun i => write_physical_samples i
                                   (py_slice (samples data_list i)
                                      (j * rate self i) ((j + 1) * rate self i)))
                     (seq 0 (length data_list)))
              (seq 0 k))
    /\ (forall j i, (j < k)%nat -> (i < length data_list)%nat ->
          length (py_slice (samples data_list i)
                    (j * rate self i) ((j + 1) * rate self i)) = rate self i)
    /\ (forall j, advance self data_list (cursors self data_list j)
                  = cursors self data_list (S j)).
Proof.
  intros Hlen Hpos.
  destruct (full_rounds_exists self data_list Hlen Hpos) as [k Hk].
  exists k. split; [exact Hk |]. split; [| split; [| split; [| split]]].
  - intros k' Hk'. eapply full_rounds_unique; eassumption.
  - intros fuel Hfuel. cbn zeta.
    rewrite (writeSamples_rounds self data_list Hlen fuel k Hk Hfuel). cbn zeta.
    f_equal. f_equal.
    apply (proj1 (last_loop_quiet self data_list Hlen (cursors self data_list k)
                    (seq 0 (length data_list)) tt)).
  - apply (rounds_spelled self data_list Hlen).
  - intros j i Hj Hi. destruct Hk as (Hall & _). specialize (Hall i Hi).
    replace ((j + 1) * rate self i)%nat with (j * rate self i + rate self i)%nat by lia.
    apply (length_py_slice self data_list Hlen). nia.
  - intros j. apply advance_cursors, Hlen.
Qed.

Lemma writeSamples_round_robin_witness :
  exists k,
    full_rounds session_rate2 data_5_5_5 k
    /\ (forall k', full_rounds session_rate2 data_5_5_5 k' -> k' = k)
    /\ (forall fuel, (k <= fuel)%nat ->
          let last := for_arange (length data_5_5_5)
                        (last_body data_5_5_5 (cursors session_rate2 data_5_5_5 k))
                        tt session_rate2 in
          writeSamples data_5_5_5 fuel session_rate2
          = (session_rate2, rounds session_rate2 data_5_5_5 k ++ calls_of last,
             outcome_of last))
    /\ rounds session_rate2 data_5_5_5 k
       = concat (map (fun j =>
                   map (fun i => write_physical_samples i
                                   (py_slice (samples data_5_5_5 i)
                                      (j * rate session_rate2 i)
                                      ((j + 1) * rate session_rate2 i)))
                     (seq 0 (length data_5_5_5)))
              (seq 0 k))
    /\ (forall j i, (j < k)%nat -> (i < length data_5_5_5)%nat ->
          length (py_slice (samples data_5_5_5 i)
                    (j * rate session_rate2 i) ((j + 1) * rate session_rate2 i))
          = rate session_rate2 i)
    /\ (forall j, advance session_rate2 data_5_5_5 (cursors session_rate2 data_5_5_5 j)
                  = cursors session_rate2 data_5_5_5 (S j)).
Proof.
  apply (writeSamples_round_robin session_rate2 data_5_5_5).
  - reflexivity.
  - exists 0%nat. cbn. lia.
Defined.

(** The example of three channels of rate 2 and five samples each: two
    rounds, then for each channel its fifth sample and one zero. *)
Example writeSamples_5_5_5 :
  full_rounds session_rate2 data_5_5_5 2
  /\ writeSamples data_5_5_5 2 session_rate2
     = (session_rate2,
        [ write_physical_samples 0 [1; 2]; write_physical_samples 1 [11; 12];
          write_physical_samples 2 [21; 22];
          write_physical_samples 0 [3; 4]; write_physical_samples 1 [13; 14];
          write_physical_samples 2 [23; 24];
          write_physical_samples 0 [5; 0]; write_physical_samples 1 [15; 0];
          write_physical_samples 2 [25; 0] ]%float,
        Return tt).
Proof.
  split; [| vm_compute; reflexivity].
  split.
  - intros i Hi. cbn in Hi.
    destruct i as [| [| [| i]]]; cbn; lia.
  - exists 0%nat. cbn. lia.
Qed.

(** C1. Let the data hold [k] full rounds and, past them, no more than one
    record for any channel. Then [writeSamples] returns, having written the
    [k] rounds and then its last records: for each channel that has samples
    left past its cursor, in channel order, one record of [sample_rate]
    elements made of the samples left followed by zeros; for a channel that
    has no sample left, no record. *)
Theorem writeSamples_last_records self data_list k fuel :
  length data_list = length (channels self) ->
  full_rounds self data_list k ->
  (k <= fuel)%nat ->
  (forall i, (i < length data_list)%nat ->
     (length (samples data_list i) <= (k + 1) * rate self i)%nat) ->
  writeSamples data_list fuel self
  = (self, rounds self data_list k ++ last_calls self data_list k, Return tt)
  /\ (forall i, (i < length data_list)%nat ->
        records_for i (last_calls self data_list k)
        = if (k * rate self i <? length (samples data_list i))%nat
          then [drop (k * rate self i) (samples data_list i)
                ++ np_zeros ((k + 1) * rate self i - length (samples data_list i))]
          else [])
  /\ (forall i, (i < length data_list)%nat ->
        length (drop (k * rate self i) (samples data_list i)
                ++ np_zeros ((k + 1) * rate self i - length (samples data_list i)))
        = rate self i).
Proof.
  intros Hlen Hk Hfuel Hhigh. split; [| split].
  - rewrite (writeSamples_rounds self data_list Hlen fuel k Hk Hfuel). cbn zeta.
    rewrite (last_loop_run self data_list Hlen k (proj1 Hk) Hhigh). reflexivity.
  - intros i Hi. apply (records_for_last_calls self data_list Hlen k i Hi).
  - intros i Hi. destruct Hk as (Hlow & _).
    specialize (Hlow i Hi). specialize (Hhigh i Hi).
    unfold np_zeros. rewrite length_app, length_drop, length_replicate. lia.
Qed.

Lemma writeSamples_last_records_witness :
  writeSamples data_4_3_4 3 session_rate1
  = (session_rate1,
     rounds session_rate1 data_4_3_4 3 ++ last_calls session_rate1 data_4_3_4 3,
     Return tt)
  /\ records_for 0 (last_calls session_rate1 data_4_3_4 3) = [[4%float]]
  /\ records_for 1 (last_calls session_rate1 data_4_3_4 3) = [].
Proof.
  assert (Hrounds : full_rounds session_rate1 data_4_3_4 3).
  { split.
    - intros i Hi. cbn in Hi. destruct i as [| [| [| i]]]; cbn; lia.
    - exists 1%nat. cbn. lia. }
  assert (Hhigh : forall i, (i < length data_4_3_4)%nat ->
            (length (samples data_4_3_4 i) <= (3 + 1) * rate session_rate1 i)%nat).
  { intros i Hi. cbn in Hi. destruct i as [| [| [| i]]]; cbn; lia. }
  destruct (writeSamples_last_records session_rate1 data_4_3_4 3 3
              eq_refl Hrounds (le_n 3) Hhigh) as (Hrun & Hrec & _).
  split; [exact Hrun |]. split.
  - rewrite (Hrec 0%nat) by (cbn; lia). reflexivity.
  - rewrite (Hrec 1%nat) by (cbn; lia). reflexivity.
Defined.

(** C1, as the claim has it: every channel would get one last record, of
    zeros when it has no sample left, and so as many records as any other.
    With three channels of rate 1 holding four, three and four samples,
    [writeSamples] returns after writing four records for channels 0 and 2
    and three for channel 1, which gets no last record. *)
Lemma writeSamples_no_last_record_when_nothing_left :
  let r := writeSamples data_4_3_4 3 session_rate1 in
  outcome_of r = Return tt
  /\ records_for 0 (calls_of r) = [[1]; [2]; [3]; [4]]%float
  /\ records_for 1 (calls_of r) = [[11]; [12]; [13]]%float
  /\ ~ one_last_record_each session_rate1 data_4_3_4 (calls_of r).
Proof.
  cbn zeta.
  assert (E0 : records_for 0 (calls_of (writeSamples data_4_3_4 3 session_rate1))
               = [[1]; [2]; [3]; [4]]%float) by (vm_compute; reflexivity).
  assert (E1 : records_for 1 (calls_of (writeSamples data_4_3_4 3 session_rate1))
               = [[11]; [12]; [13]]%float) by (vm_compute; reflexivity).
  split; [vm_compute; reflexivity |]. split; [exact E0 |]. split; [exact E1 |].
  intros [k H].
  pose proof (H 0%nat _ _ eq_refl eq_refl) as H0.
  pose proof (H 1%nat _ _ eq_refl eq_refl) as H1.
  rewrite E0 in H0. rewrite E1 in H1.
  apply (f_equal length) in H0. apply (f_equal length) in H1.
  rewrite length_app, length_map, length_seq in H0, H1.
  cbn [length] in H0, H1. lia.
Qed.

(** Where a channel holds more past its cursor than one record, the slice
    assignment of the last loop fails: with five, three and five samples
    the three rounds are written and the call raises [ValueError]. *)
Example writeSamples_5_3_5 :
  let r := writeSamples data_5_3_5 3 session_rate1 in
  outcome_of r = Raise ValueError
  /\ calls_of r = rounds session_rate1 data_5_3_5 3
  /\ length (calls_of r) = 9%nat.
Proof. vm_compute. repeat split. Qed.

(** * The invariant of the session

    The constructor makes one channel dictionary per channel, and no method
    changes their number: [len(self.channels)], which [writeSamples] tests,
    is [self.n_channels] throughout. *)

Lemma keeps_inv_quiet P {A} (m : M A) : quiet P m -> keeps_inv m.
Proof. intros Hq s Hs. rewrite (proj1 (Hq s)). exact Hs. Qed.

Lemma keeps_inv_bind {A B} (m : M A) (f : A -> M B) :
  keeps_inv m -> (forall a, keeps_inv (f a)) -> keeps_inv (m ≫= f).
Proof.
  intros Hm Hf s Hs. specialize (Hm s Hs).
  unfold mbind, M_bind. destruct (m s) as [[s1 l1] [a | e |]]; cbn in *;
    [| exact Hm | exact Hm].
  specialize (Hf a s1 Hm). destruct (f a s1) as [[s2 l2] r]. exact Hf.
Qed.

Lemma keeps_inv_for_in {X} (body : nat -> X -> M X) l :
  (forall i x, keeps_inv (body i x)) -> forall x, keeps_inv (for_in l body x).
Proof.
  intros Hb. induction l as [| i l IH]; intros x; cbn [for_in].
  - intros s Hs. exact Hs.
  - apply keeps_inv_bind; [apply Hb | exact IH].
Qed.

Lemma keeps_inv_assign upd :
  (forall o, channels (upd o) = channels o /\ n_channels (upd o) = n_channels o) ->
  keeps_inv (assign upd).
Proof.
  intros H s Hs. unfold session_inv, assign, self_after in *. cbn.
  destruct (H s) as [-> ->]. exact Hs.
Qed.

Lemma keeps_inv_channels_setitem i c : keeps_inv (channels_setitem i c).
Proof.
  intros s Hs. unfold channels_setitem, mbind, M_bind, get_self.
  destruct (py_index (channels s) i) as [k |]; [| exact Hs].
  unfold session_inv, assign, self_after in *. cbn.
  rewrite length_insert. exact Hs.
Qed.

Lemma keeps_inv_channels_setkey i upd : keeps_inv (channels_setkey i upd).
Proof.
  unfold channels_setkey. apply keeps_inv_bind.
  - apply (keeps_inv_quiet (fun _ => True)), quiet_channels_getitem.
  - intros c. apply keeps_inv_channels_setitem.
Qed.

Lemma keeps_inv_update_header strptime : keeps_inv (update_header strptime).
Proof. apply (keeps_inv_quiet (fun _ => True)), update_header_quiet. Qed.

Lemma keeps_inv_check_edfsignal i : keeps_inv (check_edfsignal i).
Proof.
  intros s Hs. unfold check_edfsignal, mbind, M_bind, get_self.
  destruct ((i <? 0) || (i >? Z.of_nat (n_channels s))); exact Hs.
Qed.

Ltac keeps_inv_tac :=
  repeat lazymatch goal with
    | |- keeps_inv (update_header _) => apply keeps_inv_update_header
    | |- keeps_inv (check_edfsignal _) => apply keeps_inv_check_edfsignal
    | |- keeps_inv (channels_setitem _ _) => apply keeps_inv_channels_setitem
    | |- keeps_inv (channels_setkey _ _) => apply keeps_inv_channels_setkey
    | |- keeps_inv (assign _) => apply keeps_inv_assign; intros o; split; reflexivity
    | |- keeps_inv (_ ≫= _) => apply keeps_inv_bind; [| intros ? ]
    end.

Lemma keeps_inv_channel_setter strptime m i :
  keeps_inv (run_channel_setter strptime m i).
Proof.
  destruct m; cbn [run_channel_setter];
    unfold setSignalHeader, setSamplefrequency, setPhysicalMaximum,
      setPhysicalMinimum, setDigitalMaximum, setDigitalMinimum, setLabel,
      setPhysicalDimension, setTransducer, setPrefilter;
    keeps_inv_tac.
Qed.

Lemma keeps_inv_setSignalHeaders strptime l : keeps_inv (setSignalHeaders strptime l).
Proof.
  unfold setSignalHeaders.
  apply keeps_inv_bind; [apply (keeps_inv_quiet (fun _ => True)), quiet_get |].
  intros s. apply keeps_inv_bind; [| intros; apply keeps_inv_update_header].
  apply keeps_inv_for_in. intros i x.
  destruct (l !! i); [apply keeps_inv_channels_setitem |].
  apply (keeps_inv_quiet (fun _ => True)), quiet_raise.
Qed.

Lemma keeps_inv_metadata_setters strptime :
  (forall fh, keeps_inv (setHeader strptime fh))
  /\ (forall v, keeps_inv (setTechnician strptime v))
  /\ (forall v, keeps_inv (setRecordingAdditional strptime v))
  /\ (forall v, keeps_inv (setPatientName strptime v))
  /\ (forall v, keeps_inv (setPatientCode strptime v))
  /\ (forall v, keeps_inv (setPatientAdditional strptime v))
  /\ (forall v, keeps_inv (setEquipment strptime v))
  /\ (forall v, keeps_inv (setAdmincode strptime v))
  /\ (forall v, keeps_inv (setGender strptime v))
  /\ (forall v, keeps_inv (setDatarecordDuration strptime v))
  /\ (forall v, keeps_inv (setStartdatetime strptime v))
  /\ (forall v, keeps_inv (setBirthdate strptime v)).
Proof.
  repeat split; intros v;
    unfold setHeader, setTechnician, setRecordingAdditional, setPatientName,
      setPatientCode, setPatientAdditional, setEquipment, setAdmincode,
      setGender, setDatarecordDuration, setStartdatetime, setBirthdate;
    keeps_inv_tac.
Qed.

Lemma keeps_inv_writeSamples data_list fuel : keeps_inv (writeSamples data_list fuel).
Proof.
  intros s Hs.
  destruct (decide (length data_list = length (channels s))) as [Hlen | Hne].
  - rewrite (proj1 (writeSamples_quiet s data_list Hlen fuel)). exact Hs.
  - unfold writeSamples, mbind, M_bind, get_self.
    apply Nat.eqb_neq in Hne. rewrite Hne. exact Hs.
Qed.

(** With no positive rate the loop never finds a channel short: whatever the
    fuel, [writeSamples] is still in its [while] loop when it runs out. *)
Lemma writeSamples_zero_rates self data_list fuel :
  length data_list = length (channels self) ->
  (forall i, (i < length data_list)%nat -> rate self i = 0%nat) ->
  outcome_of (writeSamples data_list fuel self) = OutOfFuel.
Proof.
  intros Hlen Hzero.
  assert (Hfull : forall j, all_full self data_list (cursors self data_list j) = true).
  { intros j. apply (all_full_cursors self data_list Hlen). intros i Hi.
    rewrite (Hzero i Hi). lia. }
  assert (Hloop : forall f j, exists log,
            while_notAtEnd data_list f true (cursors self data_list j) self
            = (self, log, OutOfFuel)).
  { induction f as [| f IH]; intros j; [exists []; reflexivity |].
    rewrite (while_step self data_list Hlen) by apply (length_cursors self data_list).
    rewrite (advance_cursors self data_list Hlen), Hfull. cbn zeta.
    destruct (IH (S j)) as [log ->]. eexists. reflexivity. }
  destruct (Hloop fuel 0%nat) as [log Hlog].
  unfold writeSamples.
  erewrite bind_Return by reflexivity.
  rewrite Hlen, Nat.eqb_refl. cbn [negb]. rewrite <- Hlen.
  erewrite bind_Return by apply ind_loop_run.
  cbn [app]. rewrite length_seq, <- (cursors_0 self).
  erewrite bind_Return
    by (apply (check_run self data_list Hlen), (length_cursors self data_list)).
  cbn [andb]. rewrite Hfull.
  erewrite bind_OutOfFuel by exact Hlog. reflexivity.
Qed.

(** * The single-field setters of the header *)

Lemma metadata_setter_self strptime m self :
  self_after (run_metadata_setter strptime m self) = metadata_update m self.
Proof.
  destruct m; cbn [run_metadata_setter metadata_update];
    unfold setTechnician, setRecordingAdditional, setPatientName, setPatientCode,
      setPatientAdditional, setEquipment, setAdmincode, setGender,
      setDatarecordDuration, setStartdatetime, setBirthdate;
    rewrite assign_update_header; reflexivity.
Qed.

Lemma metadata_update_inv m self :
  session_inv self -> session_inv (metadata_update m self).
Proof. intros H. destruct m; exact H. Qed.

Lemma metadata_setter_run strptime m self :
  session_inv self ->
  run_metadata_setter strptime m self
  = (metadata_update m self,
     update_header_calls strptime (metadata_update m self),
     update_header_outcome strptime (metadata_update m self)).
Proof.
  intros Hinv.
  pose proof (update_header_run strptime _ (metadata_update_inv m self Hinv)) as Hrun.
  destruct m; cbn [run_metadata_setter metadata_update] in *;
    unfold setTechnician, setRecordingAdditional, setPatientName, setPatientCode,
      setPatientAdditional, setEquipment, setAdmincode, setGender,
      setDatarecordDuration, setStartdatetime, setBirthdate;
    rewrite assign_update_header, Hrun; reflexivity.
Qed.

Lemma length_concat_imap {A B} (l : list A) (k : nat) :
  forall g : nat -> A -> list B,
  (forall i a, length (g i a) = k) ->
  length (concat (imap g l)) = (k * length l)%nat.
Proof.
  induction l as [| a l IH]; intros g Hg; [cbn; lia |].
  cbn [imap concat length]. rewrite length_app, Hg, IH by (intros; apply Hg). lia.
Qed.

Lemma filter_channel_calls_header strptime self :
  birthday_of strptime (birthdate self) = None ->
  List.filter is_channel_call (update_header_calls strptime self) = [].
Proof.
  intros Hb. unfold update_header_calls. rewrite Hb.
  rewrite !List.filter_app. unfold gender_calls.
  destruct (gender self) as [code | s]; [reflexivity |].
  destruct (String.eqb s "Male"); [reflexivity |].
  destruct (String.eqb s "Female"); reflexivity.
Qed.

(** X1. Each of the ten single-field setters other than
    [setPatientAdditional] leaves its argument in the attribute it is named
    for and every other attribute, the channel dictionaries among them, as
    it was; this holds whether the push that follows returns or raises. *)
Theorem metadata_setter_stores_its_field strptime self :
  (forall v, self_after (setTechnician strptime v self) = with_technician v self)
  /\ (forall v, self_after (setRecordingAdditional strptime v self)
                = with_recording_additional v self)
  /\ (forall v, self_after (setPatientName strptime v self) = with_patient_name v self)
  /\ (forall v, self_after (setPatientCode strptime v self) = with_patient_code v self)
  /\ (forall v, self_after (setEquipment strptime v self) = with_equipment v self)
  /\ (forall v, self_after (setAdmincode strptime v self) = with_admincode v self)
  /\ (forall v, self_after (setGender strptime v self) = with_gender v self)
  /\ (forall v, self_after (setDatarecordDuration strptime v self) = with_duration v self)
  /\ (forall v, self_after (setStartdatetime strptime v self)
                = with_recording_start_time v self)
  /\ (forall v, self_after (setBirthdate strptime v self) = with_birthdate v self).
Proof.
  repeat split; intros v.
  - apply (metadata_setter_self strptime (SetTechnician v)).
  - apply (metadata_setter_self strptime (SetRecordingAdditional v)).
  - apply (metadata_setter_self strptime (SetPatientName v)).
  - apply (metadata_setter_self strptime (SetPatientCode v)).
  - apply (metadata_setter_self strptime (SetEquipment v)).
  - apply (metadata_setter_self strptime (SetAdmincode v)).
  - apply (metadata_setter_self strptime (SetGender v)).
  - apply (metadata_setter_self strptime (SetDatarecordDuration v)).
  - apply (metadata_setter_self strptime (SetStartdatetime v)).
  - apply (metadata_setter_self strptime (SetBirthdate v)).
Qed.

(** X2. On a session whose stored birthdate can be read, a single-field
    setter returns after pushing the whole header of the object as it now
    is, not the one field: the seven text fields, the gender if it has a
    code, the record duration, the start time, the birthdate, and nine calls
    for each channel, in this order; with a gender code that is
    [11 + 9 * n_channels] calls. *)
Theorem metadata_setter_pushes_whole_header strptime m self d :
  session_inv self ->
  birthday_of strptime (birthdate (metadata_update m self)) = Some d ->
  let r := run_metadata_setter strptime m self in
  let self' := self_after r in
  outcome_of r = Return tt
  /\ calls_of r
     = text_calls self' ++ gender_calls (gender self') ++ time_calls self'
       ++ set_birthdate (year d) (month d) (day d)
          :: concat (imap channel_calls (channels self))
  /\ length (calls_of r)
     = (10 + length (gender_calls (gender self')) + 9 * n_channels self)%nat.
Proof.
  intros Hinv Hd. cbn zeta. rewrite (metadata_setter_run strptime m self Hinv).
  unfold self_after, calls_of, outcome_of. cbn [fst snd].
  unfold update_header_calls, update_header_outcome. rewrite Hd.
  assert (Hch : channels (metadata_update m self) = channels self)
    by (destruct m; reflexivity).
  rewrite Hch. split; [reflexivity |]. split; [reflexivity |].
  rewrite !length_app. cbn [length text_calls time_calls].
  rewrite (length_concat_imap (channels self) 9 channel_calls) by reflexivity.
  rewrite Hinv. lia.
Qed.

Lemma metadata_setter_pushes_whole_header_witness :
  let r := run_metadata_setter strptime_dbY (SetTechnician "Ann") example_session in
  outcome_of r = Return tt
  /\ length (calls_of r) = 38%nat.
Proof.
  destruct (metadata_setter_pushes_whole_header strptime_dbY (SetTechnician "Ann")
              example_session (mkdate 1900 1 1) eq_refl eq_refl) as (H1 & _ & H3).
  split; [exact H1 |]. rewrite H3. reflexivity.
Defined.

(** X3. A birthdate string that [strptime] rejects stays in the object
    after [setBirthdate] has raised. From then on every other single-field
    setter, and every per-channel setter called with an index in range,
    stores its argument and raises [ValueError] too, and no channel
    descriptor reaches the codec; [setBirthdate] with a date returns
    again. *)
Theorem unreadable_birthdate_blocks_later_setters strptime bad self :
  session_inv self ->
  bad <> "" ->
  strptime bad = None ->
  let self1 := self_after (setBirthdate strptime (BirthStr bad) self) in
  birthdate self1 = BirthStr bad
  /\ (forall m, (forall b, m <> SetBirthdate b) ->
        let r := run_metadata_setter strptime m self1 in
        outcome_of r = Raise ValueError
        /\ self_after r = metadata_update m self1
        /\ List.filter is_channel_call (calls_of r) = [])
  /\ (forall m (i : nat) c, channels self1 !! i = Some c ->
        let r := run_channel_setter strptime m (Z.of_nat i) self1 in
        outcome_of r = Raise ValueError
        /\ channels (self_after r) !! i = Some (setter_update m c)
        /\ List.filter is_channel_call (calls_of r) = [])
  /\ (forall d, outcome_of (setBirthdate strptime (BirthDate d) self1) = Return tt).
Proof.
  intros Hinv Hbad Hrej. cbn zeta.
  pose proof (metadata_setter_self strptime (SetBirthdate (BirthStr bad)) self) as E.
  cbn [run_metadata_setter metadata_update] in E. rewrite E. clear E.
  set (self1 := with_birthdate (BirthStr bad) self).
  assert (Hinv1 : session_inv self1) by exact Hinv.
  assert (Hnone : birthday_of strptime (birthdate self1) = None).
  { cbn. apply String.eqb_neq in Hbad. rewrite Hbad. exact Hrej. }
  split; [reflexivity |]. split; [| split].
  - intros m Hm. cbn zeta. rewrite (metadata_setter_run strptime m self1 Hinv1).
    unfold self_after, calls_of, outcome_of. cbn [fst snd].
    assert (Hnone' : birthday_of strptime (birthdate (metadata_update m self1)) = None).
    { destruct m; try exact Hnone. exfalso. apply (Hm v). reflexivity. }
    split; [| split; [reflexivity |]].
    + unfold update_header_outcome. rewrite Hnone'. reflexivity.
    + apply filter_channel_calls_header, Hnone'.
  - intros m i c Hc. cbn zeta.
    rewrite (channel_setter_accepted strptime m i c self1 Hinv1 Hc). cbn zeta.
    unfold self_after, calls_of, outcome_of. cbn [fst snd].
    split; [| split].
    + unfold update_header_outcome. cbn [birthdate with_channels]. 
      change (birthday_of strptime (BirthStr bad)) with
        (birthday_of strptime (birthdate self1)). rewrite Hnone. reflexivity.
    + cbn [channels with_channels]. apply list_lookup_insert_eq.
      apply lookup_lt_Some in Hc. exact Hc.
    + apply filter_channel_calls_header. exact Hnone.
  - intros d.
    pose proof (metadata_setter_run strptime (SetBirthdate (BirthDate d)) self1 Hinv1)
      as E.
    cbn [run_metadata_setter] in E. rewrite E. reflexivity.
Qed.

Lemma unreadable_birthdate_blocks_later_setters_witness :
  let self1 := self_after (setBirthdate strptime_dbY (BirthStr "1975-03-12")
                             example_session) in
  birthdate self1 = BirthStr "1975-03-12"
  /\ outcome_of (setTechnician strptime_dbY "Ann" self1) = Raise ValueError
  /\ outcome_of (setLabel strptime_dbY 0 "EEG" self1) = Raise ValueError.
Proof.
  destruct (unreadable_birthdate_blocks_later_setters strptime_dbY "1975-03-12"
              example_session eq_refl ltac:(discriminate) eq_refl)
    as (H1 & H2 & H3 & _).
  split; [exact H1 |]. split.
  - apply (H2 (SetTechnician "Ann")). discriminate.
  - apply (H3 (SetLabel "EEG") 0%nat (default_channel 8388607 (-8388608))).
    reflexivity.
Defined.

(** * What the methods leave alone *)

Lemma preserves_quiet (R : EdfWriter -> EdfWriter -> Prop) P {A} (m : M A) :
  (forall o, R o o) -> quiet P m -> preserves R m.
Proof. intros Hrefl Hq s. rewrite (proj1 (Hq s)). apply Hrefl. Qed.

Lemma preserves_bind (R : EdfWriter -> EdfWriter -> Prop) {A B}
    (m : M A) (f : A -> M B) :
  (forall o1 o2 o3, R o1 o2 -> R o2 o3 -> R o1 o3) ->
  preserves R m -> (forall a, preserves R (f a)) -> preserves R (m ≫= f).
Proof.
  intros Htrans Hm Hf s. specialize (Hm s).
  unfold mbind, M_bind. destruct (m s) as [[s1 l1] [a | e |]]; cbn in *;
    [| exact Hm | exact Hm].
  specialize (Hf a s1). destruct (f a s1) as [[s2 l2] r]; cbn in *.
  exact (Htrans _ _ _ Hm Hf).
Qed.

Lemma preserves_for_in (R : EdfWriter -> EdfWriter -> Prop) {X}
    (body : nat -> X -> M X) l :
  (forall o, R o o) ->
  (forall o1 o2 o3, R o1 o2 -> R o2 o3 -> R o1 o3) ->
  (forall i x, preserves R (body i x)) -> forall x, preserves R (for_in l body x).
Proof.
  intros Hrefl Htrans Hb. induction l as [| i l IH]; intros x; cbn [for_in].
  - intros s. apply Hrefl.
  - apply preserves_bind; [exact Htrans | apply Hb | exact IH].
Qed.

Lemma preserves_channels_setitem (R : EdfWriter -> EdfWriter -> Prop) i c :
  (forall o, R o o) ->
  (forall o chs, length chs = length (channels o) -> R o (with_channels chs o)) ->
  preserves R (channels_setitem i c).
Proof.
  intros Hrefl Hch s. unfold channels_setitem, mbind, M_bind, get_self.
  destruct (py_index (channels s) i) as [k |]; [| apply Hrefl].
  apply Hch, length_insert.
Qed.

Lemma same_frame_refl o : same_frame o o.
Proof. repeat split. Qed.

Lemma same_frame_trans o1 o2 o3 :
  same_frame o1 o2 -> same_frame o2 o3 -> same_frame o1 o3.
Proof.
  unfold same_frame. intros (A1 & A2 & A3 & A4 & A5 & A6) (B1 & B2 & B3 & B4 & B5 & B6).
  repeat split; congruence.
Qed.

Lemma same_frame_with_channels o chs :
  length chs = length (channels o) -> same_frame o (with_channels chs o).
Proof. intros H. repeat split. exact H. Qed.

(** [writeSamples] as a whole, for any input: it leaves the object alone and
    calls nothing but [write_physical_samples]. *)
Lemma quiet_np_assign_prefix P a r src : quiet P (np_assign_prefix a r src).
Proof.
  unfold np_assign_prefix. destruct (Nat.eqb _ _); [apply quiet_ret |].
  destruct src as [| x [| y src]];
    first [apply quiet_ret | apply quiet_raise].
Qed.

Lemma quiet_check_body P data_list ind i b :
  quiet P (check_body data_list ind i b).
Proof.
  unfold check_body.
  apply quiet_bind; [apply quiet_py_getitem | intros d].
  apply quiet_bind; [apply quiet_py_getitem | intros k].
  apply quiet_bind; [apply quiet_channels_getitem | intros c].
  destruct (_ <? _)%nat; apply quiet_ret.
Qed.

Lemma quiet_round_body data_list i ind :
  quiet is_write (round_body data_list i ind).
Proof.
  unfold round_body, writePhysicalSamples.
  apply quiet_bind; [apply quiet_py_getitem | intros d].
  apply quiet_bind; [apply quiet_py_getitem | intros k].
  apply quiet_bind; [apply quiet_channels_getitem | intros c].
  apply quiet_bind; [apply quiet_call; exact I | intros _].
  apply quiet_bind; [apply quiet_py_getitem | intros k'].
  apply quiet_bind; [apply quiet_channels_getitem | intros c'].
  apply quiet_ret.
Qed.

Lemma quiet_last_body data_list ind i x :
  quiet is_write (last_body data_list ind i x).
Proof.
  unfold last_body, writePhysicalSamples.
  apply quiet_bind; [apply quiet_channels_getitem | intros c].
  apply quiet_bind; [apply quiet_py_getitem | intros d].
  apply quiet_bind; [apply quiet_py_getitem | intros k].
  destruct (_ >? 0); [| apply quiet_ret].
  apply quiet_bind; [apply quiet_np_assign_prefix | intros a].
  apply quiet_call. exact I.
Qed.

Lemma quiet_while data_list fuel : forall b ind,
  quiet is_write (while_notAtEnd data_list fuel b ind).
Proof.
  induction fuel as [| fuel IH]; intros [|] ind; cbn [while_notAtEnd];
    try apply quiet_ret.
  - intros s. split; [reflexivity | constructor].
  - apply quiet_bind; [apply quiet_for_in; intros; apply quiet_round_body | intros ind'].
    apply quiet_bind; [apply quiet_for_in; intros; apply quiet_check_body | intros b].
    apply IH.
Qed.

Lemma quiet_writeSamples data_list fuel : quiet is_write (writeSamples data_list fuel).
Proof.
  unfold writeSamples.
  apply quiet_bind; [apply quiet_get | intros s].
  destruct (negb _); [apply quiet_raise |].
  apply quiet_bind; [apply quiet_for_in; intros; apply quiet_ret | intros ind].
  apply quiet_bind; [apply quiet_for_in; intros; apply quiet_check_body | intros b].
  apply quiet_bind; [apply quiet_while | intros ind'].
  apply quiet_for_in. intros. apply quiet_last_body.
Qed.

Lemma writeAnnotation_self onset dur desc fmt self :
  self_after (writeAnnotation onset dur desc fmt self) = self.
Proof.
  unfold writeAnnotation.
  destruct (String.eqb fmt "utf-8"), (PrimFloat.leb 0%float dur);
    try destruct (encode_latin1 desc); reflexivity.
Qed.

Ltac preserves_frame_tac :=
  repeat lazymatch goal with
    | |- preserves same_frame (update_header _) =>
        apply (preserves_quiet same_frame (fun _ => True));
        [apply same_frame_refl | apply update_header_quiet]
    | |- preserves same_frame (check_edfsignal _) =>
        let s := fresh "s" in
        intros s; unfold check_edfsignal, mbind, M_bind, get_self;
        destruct (_ || _); apply same_frame_refl
    | |- preserves same_frame (channels_getitem _) =>
        apply (preserves_quiet same_frame (fun _ => True));
        [apply same_frame_refl | apply quiet_channels_getitem]
    | |- preserves same_frame (channels_setitem _ _) =>
        apply preserves_channels_setitem;
        [apply same_frame_refl | apply same_frame_with_channels]
    | |- preserves same_frame (channels_setkey _ _) => unfold channels_setkey
    | |- preserves same_frame (assign _) =>
        let s := fresh "s" in intros s; repeat split
    | |- preserves same_frame (_ ≫= _) =>
        apply preserves_bind; [apply same_frame_trans | | intros ? ]
    end.

Lemma preserves_frame_method strptime c :
  preserves same_frame (run_method strptime c).
Proof.
  destruct c as [m | m i | fh | l | data_list fuel | onset dur desc fmt];
    cbn [run_method].
  - intros s. rewrite metadata_setter_self. destruct m; repeat split.
  - destruct m; cbn [run_channel_setter];
      unfold setSignalHeader, setSamplefrequency, setPhysicalMaximum,
        setPhysicalMinimum, setDigitalMaximum, setDigitalMinimum, setLabel,
        setPhysicalDimension, setTransducer, setPrefilter;
      preserves_frame_tac.
  - unfold setHeader. preserves_frame_tac.
  - unfold setSignalHeaders.
    apply preserves_bind; [apply same_frame_trans | | intros s].
    + apply (preserves_quiet same_frame (fun _ => True));
        [apply same_frame_refl | apply quiet_get].
    + apply preserves_bind; [apply same_frame_trans | | intros; preserves_frame_tac].
      apply preserves_for_in; [apply same_frame_refl | apply same_frame_trans |].
      intros i x. destruct (l !! i); [preserves_frame_tac |].
      apply (preserves_quiet same_frame (fun _ => True));
        [apply same_frame_refl | apply quiet_raise].
  - apply (preserves_quiet same_frame is_write);
      [apply same_frame_refl | apply quiet_writeSamples].
  - intros s. rewrite writeAnnotation_self. apply same_frame_refl.
Qed.

(** X4. No call of a method, whether it returns or raises, changes the
    file name, the file type, the number of channels, the sample buffers or
    the handle of the object, or the number of its channel dictionaries. *)
Theorem methods_keep_frame strptime c self :
  let self' := self_after (run_method strptime c self) in
  path self' = path self
  /\ file_type self' = file_type self
  /\ n_channels self' = n_channels self
  /\ sample_buffer self' = sample_buffer self
  /\ handle self' = handle self
  /\ length (channels self') = length (channels self).
Proof. apply (preserves_frame_method strptime c self). Qed.

(** X5. Every object that a program can hold, made by the constructor and
    then used through any calls of the methods, returned or raised, has one
    channel dictionary per channel: [len(self.channels) == self.n_channels],
    the two numbers that the setters and [writeSamples] test. *)
Theorem reachable_session_inv strptime self :
  reachable strptime self -> session_inv self.
Proof.
  induction 1 as [file_name n ft now h | self c _ IH].
  - apply init_inv.
  - destruct (preserves_frame_method strptime c self) as (_ & _ & Hn & _ & _ & Hlen).
    unfold session_inv in *. rewrite Hlen, Hn. exact IH.
Qed.

Lemma reachable_session_inv_witness :
  session_inv
    (self_after (run_method strptime_dbY (CallChannelSetter (SetLabel "EEG") 3)
       (self_after (run_method strptime_dbY
                      (CallMetadataSetter (SetBirthdate (BirthStr "never")))
                      example_session)))).
Proof.
  apply (reachable_session_inv strptime_dbY).
  apply reachable_call, reachable_call, reachable_init.
Defined.

(** X6. Whatever it is given and however it ends, [writeSamples] leaves
    the object as it was and calls nothing of the codec but
    [write_physical_samples]: no part of the header is pushed again. *)
Theorem writeSamples_only_writes data_list fuel self :
  self_after (writeSamples data_list fuel self) = self
  /\ Forall is_write (calls_of (writeSamples data_list fuel self)).
Proof. apply quiet_writeSamples. Qed.

(** * The per-channel setters, once more *)

(** X7. A per-channel setter called with an index below 0 or above the
    number of channels raises [ChannelDoesNotExist] with that index; the
    object is unchanged and nothing is pushed to the codec. *)
Theorem channel_setter_rejects_index_outside strptime m edfsignal self :
  edfsignal < 0 \/ Z.of_nat (n_channels self) < edfsignal ->
  run_channel_setter strptime m edfsignal self
  = (self, [], Raise (ChannelDoesNotExist edfsignal)).
Proof. apply channel_setter_refused. Qed.

Lemma channel_setter_rejects_index_outside_witness :
  run_channel_setter strptime_dbY (SetSamplefrequency 256) (-1) example_session
  = (example_session, [], Raise (ChannelDoesNotExist (-1))).
Proof.
  apply (channel_setter_rejects_index_outside strptime_dbY (SetSamplefrequency 256)
           (-1) example_session).
  left. lia.
Defined.




(** * [setSignalHeaders] and [setHeader] *)

Lemma with_channels_same o : with_channels (channels o) o = o.
Proof. destruct o. reflexivity. Qed.

Lemma for_in_app {X} (body : nat -> X -> M X) l1 l2 : forall x s,
  for_in (l1 ++ l2) body x s = (for_in l1 body x ≫= for_in l2 body) s.
Proof.
  induction l1 as [| i l1 IH]; intros x s.
  - cbn [app for_in]. unfold mbind, M_bind, mret, M_ret.
    destruct (for_in l2 body x s) as [[s2 lg2] r]. reflexivity.
  - cbn [app for_in]. unfold mbind, M_bind.
    destruct (body i x s) as [[s1 lg1] [x' | e |]]; [| reflexivity | reflexivity].
    rewrite IH. unfold mbind, M_bind.
    destruct (for_in l1 body x' s1) as [[s2 lg2] [x'' | e |]];
      [| reflexivity | reflexivity].
    destruct (for_in l2 body x'' s2) as [[s3 lg3] r].
    rewrite app_assoc. reflexivity.
Qed.

(** The loop of [setSignalHeaders] over the indices [a], ..., [a + k - 1],
    all of them inside both lists. *)
Lemma signal_headers_loop (l : list channel) : forall k a s,
  (a + k <= length (channels s))%nat -> (a + k <= length l)%nat ->
  for_in (seq a k)
    (fun edfsignal _ =>
       match l !! edfsignal with
       | Some h => channels_setitem (Z.of_nat edfsignal) h
       | None => raise IndexError
       end) tt s
  = (with_channels
       (take a (channels s) ++ take k (drop a l) ++ drop (a + k) (channels s)) s,
     [], Return tt).
Proof.
  induction k as [| k IH]; intros a s Hs Hl.
  - cbn [seq for_in]. rewrite take_0, Nat.add_0_r. cbn [app].
    rewrite take_drop, with_channels_same. reflexivity.
  - cbn [seq for_in].
    destruct (lookup_lt_is_Some_2 l a ltac:(lia)) as [h Hh]. rewrite Hh.
    erewrite bind_Return.
    2:{ unfold channels_setitem, mbind, M_bind, get_self.
        rewrite py_index_nat by lia. reflexivity. }
    rewrite IH by (cbn; rewrite ?length_insert; lia).
    unfold self_after, calls_of, outcome_of. cbn [fst snd app channels with_channels].
    assert (E : forall x y, with_channels x (with_channels y s) = with_channels x s)
      by reflexivity.
    rewrite E. do 3 f_equal.
    rewrite (take_S_r _ a h) by (apply list_lookup_insert_eq; lia).
    rewrite take_insert_ge by lia.
    rewrite drop_insert_lt by lia.
    rewrite (drop_S l h a Hh). cbn [take].
    rewrite <- app_assoc. cbn [app].
    replace (S a + k)%nat with (a + S k)%nat by lia. reflexivity.
Qed.

(** X10. Given at least as many dictionaries as the session has channels,
    [setSignalHeaders] replaces the channel dictionaries by the first
    [n_channels] of them, changes nothing else, and pushes the header of
    the object as it now is; dictionaries beyond [n_channels] are not
    looked at. *)
Theorem setSignalHeaders_replaces_all strptime signalHeaders self :
  session_inv self ->
  (n_channels self <= length signalHeaders)%nat ->
  let self' := with_channels (take (n_channels self) signalHeaders) self in
  setSignalHeaders strptime signalHeaders self
  = (self', update_header_calls strptime self', update_header_outcome strptime self').
Proof.
  intros Hinv Hlen. cbn zeta. unfold setSignalHeaders.
  erewrite bind_Return by reflexivity.
  erewrite bind_Return.
  2:{ apply (signal_headers_loop signalHeaders (n_channels self) 0 self);
        [rewrite Hinv; lia | lia]. }
  rewrite take_0, drop_0. cbn [app Nat.add].
  rewrite (drop_ge (channels self)) by (rewrite Hinv; lia). rewrite app_nil_r.
  rewrite update_header_run.
  - reflexivity.
  - unfold session_inv. cbn. rewrite length_take. lia.
Qed.

Lemma setSignalHeaders_replaces_all_witness :
  let hs := [default_channel 32767 (-32768); default_channel 1 0;
             default_channel 2 0; default_channel 3 0] in
  channels (self_after (setSignalHeaders strptime_dbY hs example_session))
  = [default_channel 32767 (-32768); default_channel 1 0; default_channel 2 0].
Proof.
  cbn zeta.
  rewrite (setSignalHeaders_replaces_all strptime_dbY
             [default_channel 32767 (-32768); default_channel 1 0;
              default_channel 2 0; default_channel 3 0] example_session eq_refl).
  - reflexivity.
  - cbn. lia.
Defined.

(** X11. Given fewer dictionaries than the session has channels,
    [setSignalHeaders] raises [IndexError] and pushes nothing, but not
    before it has replaced the dictionaries of the first channels by the
    ones it was given: the object is left half updated. *)
Theorem setSignalHeaders_too_few strptime signalHeaders self :
  session_inv self ->
  (length signalHeaders < n_channels self)%nat ->
  setSignalHeaders strptime signalHeaders self
  = (with_channels
       (signalHeaders ++ drop (length signalHeaders) (channels self)) self,
     [], Raise IndexError).
Proof.
  intros Hinv Hlen. unfold setSignalHeaders, for_arange.
  erewrite bind_Return by reflexivity.
  replace (n_channels self)
    with (length signalHeaders + S (n_channels self - S (length signalHeaders)))%nat
    by lia.
  rewrite seq_app. cbn [seq Nat.add].
  erewrite bind_Raise; [reflexivity |].
  rewrite for_in_app.
  erewrite bind_Return.
  2:{ apply (signal_headers_loop signalHeaders (length signalHeaders) 0 self);
        [rewrite Hinv; lia | lia]. }
  rewrite take_0, drop_0. cbn [app Nat.add for_in]. rewrite take_ge by lia.
  rewrite (lookup_ge_None_2 signalHeaders (length signalHeaders)) by lia.
  erewrite bind_Raise by reflexivity. reflexivity.
Qed.

Lemma setSignalHeaders_too_few_witness :
  setSignalHeaders strptime_dbY [default_channel 1 0] example_session
  = (with_channels
       [default_channel 1 0; default_channel 8388607 (-8388608);
        default_channel 8388607 (-8388608)] example_session,
     [], Raise IndexError).
Proof.
  rewrite (setSignalHeaders_too_few strptime_dbY [default_channel 1 0]
             example_session eq_refl).
  - reflexivity.
  - cbn. lia.
Defined.

Lemma setHeader_self strptime fh self :
  self_after (setHeader strptime fh self) = header_update fh self.
Proof.
  unfold setHeader.
  repeat (erewrite bind_Return by reflexivity).
  unfold self_after at 1. cbn [fst]. apply update_header_self.
Qed.

(** X12. [setHeader] stores the ten values of its dictionary in their ten
    attributes, the patient-additional text among them, and leaves the
    record duration and the channel dictionaries as they were, whether the
    push returns or raises; on a session with one dictionary per channel it
    pushes the header once, that of the object as it now is. *)
Theorem setHeader_stores_ten_fields strptime fh self :
  let r := setHeader strptime fh self in
  let self' := self_after r in
  technician self' = fh_technician fh
  /\ recording_additional self' = fh_recording_additional fh
  /\ patient_name self' = fh_patientname fh
  /\ patient_additional self' = fh_patient_additional fh
  /\ patient_code self' = fh_patientcode fh
  /\ equipment self' = fh_equipment fh
  /\ admincode self' = fh_admincode fh
  /\ gender self' = fh_gender fh
  /\ recording_start_time self' = fh_startdate fh
  /\ birthdate self' = fh_birthdate fh
  /\ duration self' = duration self
  /\ channels self' = channels self
  /\ (session_inv self ->
      calls_of r = update_header_calls strptime self'
      /\ outcome_of r = update_header_outcome strptime self').
Proof.
  cbn zeta. rewrite setHeader_self.
  repeat (split; [reflexivity |]).
  intros Hinv.
  pose proof (update_header_run strptime (header_update fh self) Hinv) as Hrun.
  unfold setHeader.
  repeat (erewrite bind_Return by reflexivity).
  change (update_header strptime
            (with_birthdate (fh_birthdate fh)
               (with_recording_start_time (fh_startdate fh)
                  (with_gender (fh_gender fh)
                     (with_admincode (fh_admincode fh)
                        (with_equipment (fh_equipment fh)
                           (with_patient_code (fh_patientcode fh)
                              (with_patient_additional (fh_patient_additional fh)
                                 (with_patient_name (fh_patientname fh)
                                    (with_recording_additional
                                       (fh_recording_additional fh)
                                       (with_technician (fh_technician fh) self)))))))))))
    with (update_header strptime (header_update fh self)).
  rewrite Hrun. split; reflexivity.
Qed.

(** A relation between the object before and after that holds across every
    method, once it holds across the assignments that the methods make. *)
Lemma preserves_method (R : EdfWriter -> EdfWriter -> Prop) strptime c :
  (forall o, R o o) ->
  (forall o1 o2 o3, R o1 o2 -> R o2 o3 -> R o1 o3) ->
  (forall o chs, length chs = length (channels o) -> R o (with_channels chs o)) ->
  (forall m o, c = CallMetadataSetter m -> R o (metadata_update m o)) ->
  (forall fh o, c = CallSetHeader fh -> R o (header_update fh o)) ->
  preserves R (run_method strptime c).
Proof.
  intros Hrefl Htrans Hch Hmeta Hhead.
  assert (Hq : forall A (m : M A), quiet (fun _ => True) m -> preserves R m)
    by (intros A m; apply preserves_quiet, Hrefl).
  assert (Hcheck : forall i, preserves R (check_edfsignal i)).
  { intros i s. unfold check_edfsignal, mbind, M_bind, get_self.
    destruct (_ || _); apply Hrefl. }
  assert (Hset : forall i h, preserves R (channels_setitem i h))
    by (intros; apply preserves_channels_setitem; assumption).
  assert (Hkey : forall i upd, preserves R (channels_setkey i upd)).
  { intros i upd. unfold channels_setkey.
    apply preserves_bind; [exact Htrans | apply Hq, quiet_channels_getitem |].
    intros h. apply Hset. }
  assert (Hupd : preserves R (update_header strptime))
    by apply Hq, update_header_quiet.
  destruct c as [m | m i | fh | l | data_list fuel | onset dur desc fmt];
    cbn [run_method].
  - intros s. rewrite metadata_setter_self. apply (Hmeta m s eq_refl).
  - destruct m; cbn [run_channel_setter];
      unfold setSignalHeader, setSamplefrequency, setPhysicalMaximum,
        setPhysicalMinimum, setDigitalMaximum, setDigitalMinimum, setLabel,
        setPhysicalDimension, setTransducer, setPrefilter;
      (apply preserves_bind; [exact Htrans | apply Hcheck | intros _]);
      (apply preserves_bind; [exact Htrans | first [apply Hset | apply Hkey] | intros _]);
      exact Hupd.
  - intros s. rewrite setHeader_self. apply (Hhead fh s eq_refl).
  - unfold setSignalHeaders.
    apply preserves_bind; [exact Htrans | apply Hq, quiet_get | intros s].
    apply preserves_bind; [exact Htrans | | intros; exact Hupd].
    apply preserves_for_in; [exact Hrefl | exact Htrans |].
    intros i x. destruct (l !! i); [apply Hset | apply Hq, quiet_raise].
  - apply (preserves_quiet R is_write); [exact Hrefl | apply quiet_writeSamples].
  - intros s. rewrite writeAnnotation_self. apply Hrefl.
Qed.

(** X13. The patient-additional text of the object is changed by no method
    but [setHeader]: every other call, [setPatientAdditional] among them,
    leaves it as it was. *)
Theorem patient_additional_changed_by_setHeader_only strptime c self :
  (forall fh, c <> CallSetHeader fh) ->
  patient_additional (self_after (run_method strptime c self))
  = patient_additional self.
Proof.
  intros Hc.
  apply (preserves_method
           (fun o o' => patient_additional o' = patient_additional o) strptime c).
  - reflexivity.
  - intros o1 o2 o3 H12 H23. congruence.
  - reflexivity.
  - intros m o _. destruct m; reflexivity.
  - intros fh o Hfh. destruct (Hc fh Hfh).
Qed.

Lemma patient_additional_changed_by_setHeader_only_witness :
  patient_additional
    (self_after (run_method strptime_dbY
                   (CallMetadataSetter (SetPatientAdditional "left-handed"))
                   example_session))
  = "".
Proof.
  rewrite (patient_additional_changed_by_setHeader_only strptime_dbY
             (CallMetadataSetter (SetPatientAdditional "left-handed"))
             example_session).
  - reflexivity.
  - discriminate.
Defined.

(** * [writeSamples]: what reaches the codec for one channel *)

Lemma records_for_app i l1 l2 :
  records_for i (l1 ++ l2) = records_for i l1 ++ records_for i l2.
Proof. apply omap_app. Qed.

Lemma records_for_writes (g : nat -> list float) i : forall m a,
  records_for i (map (fun j => write_physical_samples j (g j)) (seq a m))
  = if ((a <=? i) && (i <? a + m))%nat then [g i] else [].
Proof.
  induction m as [| m IH]; intros a.
  - cbn [seq map]. replace ((a <=? i) && (i <? a + 0))%nat with false; [reflexivity |].
    symmetry. apply andb_false_iff. rewrite Nat.leb_gt, Nat.ltb_ge. lia.
  - cbn [seq map]. change (records_for i (?c :: ?l)) with (records_for i ([c] ++ l)).
    rewrite records_for_app, IH.
    destruct (decide (i = a)) as [-> | Hne].
    + replace ((S a <=? a) && (a <? S a + m))%nat with false
        by (symmetry; apply andb_false_iff; rewrite Nat.leb_gt; lia).
      replace ((a <=? a) && (a <? a + S m))%nat with true
        by (symmetry; apply andb_true_iff; rewrite Nat.leb_le, Nat.ltb_lt; lia).
      cbn. rewrite Nat.eqb_refl. reflexivity.
    + replace ((a <=? i) && (i <? a + S m))%nat
        with ((S a <=? i) && (i <? S a + m))%nat
        by (apply eq_true_iff_eq;
            rewrite !andb_true_iff, !Nat.leb_le, !Nat.ltb_lt; lia).
      cbn. apply Nat.eqb_neq in Hne. rewrite Hne. reflexivity.
Qed.

Lemma records_for_rounds self data_list i :
  length data_list = length (channels self) ->
  (i < length data_list)%nat ->
  forall k,
    records_for i (rounds self data_list k)
    = map (fun j => py_slice (samples data_list i)
                      (j * rate self i) ((j + 1) * rate self i)) (seq 0 k).
Proof.
  intros Hlen Hi. induction k as [| k IH]; [reflexivity |].
  unfold rounds in *. rewrite seq_S, !map_app, concat_app, records_for_app, IH.
  cbn [map concat Nat.add]. rewrite app_nil_r. f_equal.
  unfold round_calls.
  rewrite (records_for_writes
             (fun j => py_slice (samples data_list j)
                         (cursor (cursors self data_list k) j)
                         (cursor (cursors self data_list k) j + rate self j))).
  replace ((0 <=? i) && (i <? 0 + length data_list))%nat with true
    by (symmetry; apply andb_true_iff; rewrite Nat.leb_le, Nat.ltb_lt; lia).
  rewrite (cursor_cursors self data_list k i Hi).
  do 2 f_equal. lia.
Qed.

Lemma concat_slices (d : list float) r : forall k,
  concat (map (fun j => py_slice d (j * r) ((j + 1) * r)) (seq 0 k)) = take (k * r) d.
Proof.
  induction k as [| k IH]; [reflexivity |].
  rewrite seq_S, map_app, concat_app, IH. cbn [map concat Nat.add].
  rewrite app_nil_r. unfold py_slice.
  replace ((k + 1) * r - k * r)%nat with r by lia.
  rewrite take_take_drop. f_equal. lia.
Qed.

(** X14. Let the data hold [k] full rounds and, past them, no more than
    one record for any channel. Then the records that [writeSamples] writes
    for a channel, put end to end, are the samples it was given for that
    channel, all of them and in their order, followed by zeros only: the
    zeros that fill the last record when samples were left for it, and none
    otherwise. *)
Theorem writeSamples_writes_all_samples self data_list k fuel :
  length data_list = length (channels self) ->
  full_rounds self data_list k ->
  (k <= fuel)%nat ->
  (forall i, (i < length data_list)%nat ->
     (length (samples data_list i) <= (k + 1) * rate self i)%nat) ->
  forall i, (i < length data_list)%nat ->
    concat (records_for i (calls_of (writeSamples data_list fuel self)))
    = samples data_list i
      ++ np_zeros (if (k * rate self i <? length (samples data_list i))%nat
                   then (k + 1) * rate self i - length (samples data_list i)
                   else 0).
Proof.
  intros Hlen Hk Hfuel Hhigh i Hi.
  rewrite (writeSamples_rounds self data_list Hlen fuel k Hk Hfuel). cbn zeta.
  rewrite (last_loop_run self data_list Hlen k (proj1 Hk) Hhigh).
  unfold calls_of. cbn [fst snd].
  rewrite records_for_app, concat_app.
  rewrite (records_for_rounds self data_list i Hlen Hi), concat_slices.
  rewrite (records_for_last_calls self data_list Hlen k i Hi).
  destruct Hk as (Hlow & _). specialize (Hlow i Hi).
  destruct (k * rate self i <? length (samples data_list i))%nat eqn:Hlt.
  - cbn [concat]. rewrite app_nil_r, app_assoc, take_drop. reflexivity.
  - apply Nat.ltb_ge in Hlt. cbn [concat]. rewrite take_ge by lia. reflexivity.
Qed.

Lemma writeSamples_writes_all_samples_witness :
  concat (records_for 0 (calls_of (writeSamples data_5_5_5 2 session_rate2)))
  = [1; 2; 3; 4; 5; 0]%float.
Proof.
  assert (Hrounds : full_rounds session_rate2 data_5_5_5 2).
  { split.
    - intros i Hi. cbn in Hi. destruct i as [| [| [| i]]]; cbn; lia.
    - exists 0%nat. cbn. lia. }
  assert (Hhigh : forall i, (i < length data_5_5_5)%nat ->
            (length (samples data_5_5_5 i) <= (2 + 1) * rate session_rate2 i)%nat).
  { intros i Hi. cbn in Hi. destruct i as [| [| [| i]]]; cbn; lia. }
  rewrite (writeSamples_writes_all_samples session_rate2 data_5_5_5 2 2
             eq_refl Hrounds (le_n 2) Hhigh 0%nat) by (cbn; lia).
  reflexivity.
Defined.

(** * [writeSamples]: the ways it does not return *)

Lemma np_assign_prefix_raises (a : list float) r src s :
  length src <> Nat.min r (length a) -> (2 <= length src)%nat ->
  np_assign_prefix a r src s = (s, [], Raise ValueError).
Proof.
  intros Hne Hlen. unfold np_assign_prefix.
  apply Nat.eqb_neq in Hne. rewrite Hne.
  destruct src as [| x [| y src]]; cbn in Hlen; [lia | lia | reflexivity].
Qed.

Lemma last_body_raises self data_list k i :
  length data_list = length (channels self) ->
  (i < length data_list)%nat ->
  ((k + 1) * rate self i < length (samples data_list i))%nat ->
  (k * rate self i + 2 <= length (samples data_list i))%nat ->
  last_body data_list (cursors self data_list k) i tt self
  = (self, [], Raise ValueError).
Proof.
  intros Hlen Hi Hlong Htwo. unfold last_body.
  destruct (channel_lookup self data_list Hlen i Hi) as (c & Hc & Hrate).
  erewrite bind_Return by (apply channels_getitem_lookup, Hc).
  erewrite bind_Return
    by (apply py_getitem_lookup, (data_lookup data_list i Hi)).
  erewrite bind_Return
    by (apply py_getitem_lookup, cursor_lookup; rewrite length_cursors; exact Hi).
  rewrite (cursor_cursors self data_list k i Hi), Hrate.
  replace (Z.of_nat (length (samples data_list i)) - Z.of_nat (k * rate self i) >? 0)
    with true by (symmetry; apply Z.gtb_lt; lia).
  replace (Z.to_nat (Z.of_nat (length (samples data_list i))
                     - Z.of_nat (k * rate self i)))
    with (length (samples data_list i) - k * rate self i)%nat by lia.
  erewrite bind_Raise; [reflexivity |].
  apply np_assign_prefix_raises.
  - unfold py_last, np_zeros. rewrite length_drop, length_replicate. lia.
  - unfold py_last. rewrite length_drop. lia.
Qed.

Lemma for_in_unit_raise (body : nat -> unit -> M unit)
    (g : nat -> list codec_call) self e i0 l2 : forall l1,
  (forall i, i ∈ l1 -> body i tt self = (self, g i, Return tt)) ->
  body i0 tt self = (self, [], Raise e) ->
  for_in (l1 ++ i0 :: l2) body tt self = (self, flat_map g l1, Raise e).
Proof.
  induction l1 as [| i l1 IH]; intros Hb He.
  - cbn [app for_in flat_map]. erewrite bind_Raise by exact He. reflexivity.
  - cbn [app for_in flat_map].
    erewrite bind_Return by (apply Hb; left).
    rewrite IH by (first [intros j Hj; apply Hb; right; exact Hj | exact He]).
    reflexivity.
Qed.

(** X15. Let the data hold [k] full rounds, and let channel [i0] be the
    first that holds, past them, more than one record (and at least two
    samples). Then [writeSamples] raises [ValueError] from the slice
    assignment of its last loop, after it has written the [k] rounds and
    the last records of the channels before [i0]; the channels from [i0] on
    get no last record. *)
Theorem writeSamples_raises_on_long_rest self data_list k fuel i0 :
  length data_list = length (channels self) ->
  full_rounds self data_list k ->
  (k <= fuel)%nat ->
  (i0 < length data_list)%nat ->
  (forall i, (i < i0)%nat ->
     (length (samples data_list i) <= (k + 1) * rate self i)%nat) ->
  ((k + 1) * rate self i0 < length (samples data_list i0))%nat ->
  (k * rate self i0 + 2 <= length (samples data_list i0))%nat ->
  writeSamples data_list fuel self
  = (self, rounds self data_list k ++ last_calls_before self data_list k i0,
     Raise ValueError).
Proof.
  intros Hlen Hk Hfuel Hi0 Hshort Hlong Htwo.
  rewrite (writeSamples_rounds self data_list Hlen fuel k Hk Hfuel). cbn zeta.
  unfold for_arange.
  replace (length data_list) with (i0 + S (length data_list - S i0))%nat at 1 2 3 by lia.
  rewrite seq_app. cbn [seq Nat.add].
  rewrite (for_in_unit_raise _
             (fun i => if (k * rate self i <? length (samples data_list i))%nat
                       then [write_physical_samples i
                               (drop (k * rate self i) (samples data_list i)
                                ++ np_zeros ((k + 1) * rate self i
                                             - length (samples data_list i)))]
                       else [])
             self ValueError i0).
  - reflexivity.
  - intros i Hi. apply elem_of_seq in Hi.
    apply (last_body_run self data_list Hlen k i); [lia | | apply Hshort; lia].
    apply (proj1 Hk). lia.
  - apply (last_body_raises self data_list k i0 Hlen Hi0 Hlong Htwo).
Qed.

Lemma writeSamples_raises_on_long_rest_witness :
  writeSamples data_5_3_5 3 session_rate1
  = (session_rate1,
     rounds session_rate1 data_5_3_5 3 ++ last_calls_before session_rate1 data_5_3_5 3 0,
     Raise ValueError).
Proof.
  apply (writeSamples_raises_on_long_rest session_rate1 data_5_3_5 3 3 0).
  - reflexivity.
  - split.
    + intros i Hi. cbn in Hi. destruct i as [| [| [| i]]]; cbn; lia.
    + exists 1%nat. cbn. lia.
  - lia.
  - cbn. lia.
  - intros i Hi. lia.
  - cbn. lia.
  - cbn. lia.
Defined.

(** X16. When no channel has a positive sample rate, and so also when the
    session has no channel at all, the loop of [writeSamples] never finds a
    channel short: however much fuel it is given, the call neither returns
    nor raises. *)
Theorem writeSamples_runs_on_without_rate self data_list fuel :
  length data_list = length (channels self) ->
  (forall i, (i < length data_list)%nat -> rate self i = 0%nat) ->
  outcome_of (writeSamples data_list fuel self) = OutOfFuel.
Proof. apply writeSamples_zero_rates. Qed.

Lemma writeSamples_runs_on_without_rate_witness :
  outcome_of (writeSamples data_4_3_4 7
                (with_rates [0; 0; 0]%nat example_session)) = OutOfFuel
  /\ outcome_of (writeSamples [] 7
                   (EdfWriter_init "empty.edf" 0 FILETYPE_EDFPLUS example_now 0))
     = OutOfFuel.
Proof.
  split.
  - apply (writeSamples_runs_on_without_rate
             (with_rates [0; 0; 0]%nat example_session) data_4_3_4 7).
    + reflexivity.
    + intros i Hi. cbn in Hi. destruct i as [| [| [| i]]]; [reflexivity .. | lia].
  - apply (writeSamples_runs_on_without_rate
             (EdfWriter_init "empty.edf" 0 FILETYPE_EDFPLUS example_now 0) [] 7).
    + reflexivity.
    + intros i Hi. cbn in Hi. lia.
Defined.

(** * [writeAnnotation]: the text *)

Lemma encode_latin1_ascii (s : string) :
  Forall (fun c => (nat_of_ascii c < 128)%nat) (list_ascii_of_string s) ->
  encode_latin1 s = Some s.
Proof.
  induction s as [| c s IH]; intros H; [reflexivity |].
  cbn [list_ascii_of_string] in H. apply Forall_cons in H as [Hc Hs].
  cbn [encode_latin1].
  replace (nat_of_ascii c <? 128)%nat with true
    by (symmetry; apply Nat.ltb_lt; exact Hc).
  rewrite (IH Hs). reflexivity.
Qed.

(** X17. [writeAnnotation] writes UTF-8 only when [str_format] is exactly
    ['utf-8'], and then hands the text on as it is and always makes its one
    call. Any other [str_format] selects Latin-1: the one call is
    [write_annotation_latin1] with the re-encoded text, the same text when
    it is ASCII, and when the text has a character outside Latin-1 the
    method raises [UnicodeEncodeError] and calls nothing. The object is
    never changed. *)
Theorem writeAnnotation_text onset dur desc fmt self :
  let r := writeAnnotation onset dur desc fmt self in
  let d := if PrimFloat.leb 0%float dur then ticks dur else -1 in
  (fmt = "utf-8" ->
     r = (self, [write_annotation_utf8 (ticks onset) d desc], Return tt))
  /\ (fmt <> "utf-8" ->
        forall b, encode_latin1 desc = Some b ->
        r = (self, [write_annotation_latin1 (ticks onset) d b], Return tt))
  /\ (fmt <> "utf-8" -> encode_latin1 desc = None ->
        r = (self, [], Raise UnicodeEncodeError))
  /\ (Forall (fun c => (nat_of_ascii c < 128)%nat) (list_ascii_of_string desc) ->
        encode_latin1 desc = Some desc).
Proof.
  cbn zeta. unfold writeAnnotation, ticks.
  split; [| split; [| split]].
  - intros ->. cbn [String.eqb Ascii.eqb Bool.eqb].
    destruct (PrimFloat.leb 0%float dur); reflexivity.
  - intros Hfmt b Hb. apply String.eqb_neq in Hfmt. rewrite Hfmt, Hb.
    destruct (PrimFloat.leb 0%float dur); reflexivity.
  - intros Hfmt Hb. apply String.eqb_neq in Hfmt. rewrite Hfmt, Hb.
    destruct (PrimFloat.leb 0%float dur); reflexivity.
  - apply encode_latin1_ascii.
Qed.

(** * The constructor, once more *)

Lemma init_loop_buffers ft k : forall chs bufs,
  snd (init_loop ft k chs bufs)
  = bufs ++ (if filetype_eqb ft FILETYPE_EDFPLUS || filetype_eqb ft FILETYPE_BDFPLUS
             then [] else replicate k []).
Proof.
  destruct ft; cbn [filetype_eqb orb];
    (induction k as [| k IH]; intros chs bufs; cbn [init_loop replicate filetype_eqb orb];
     [rewrite app_nil_r; reflexivity | rewrite IH, <- ?app_assoc; reflexivity]).
Qed.

(** X18. The constructor chooses its placeholders by the presence of the
    annotation channel, not by the sample width: a session of kind EDF+ or
    BDF+ gets for every channel the digital range -8388608..8388607 and no
    sample buffer, a session of kind EDF or BDF the digital range
    -32768..32767 and one empty sample buffer per channel. In each case the
    [n_channels] dictionaries are equal, with [digital_min < digital_max],
    and the object has one dictionary per channel. *)
Theorem init_placeholders file_name n ft now h :
  let self := EdfWriter_init file_name n ft now h in
  let plus := match ft with
              | FILETYPE_EDFPLUS | FILETYPE_BDFPLUS => true
              | FILETYPE_EDF | FILETYPE_BDF => false
              end in
  channels self
  = replicate n (if plus then default_channel 8388607 (-8388608)
                 else default_channel 32767 (-32768))
  /\ sample_buffer self = (if plus then [] else replicate n [])
  /\ n_channels self = n
  /\ session_inv self
  /\ Forall (fun c => digital_min c < digital_max c) (channels self).
Proof.
  cbn zeta.
  assert (Hch := init_channels file_name n ft now h).
  assert (Hbuf : sample_buffer (EdfWriter_init file_name n ft now h)
                 = if filetype_eqb ft FILETYPE_EDFPLUS || filetype_eqb ft FILETYPE_BDFPLUS
                   then [] else replicate n []).
  { unfold EdfWriter_init. pose proof (init_loop_buffers ft n [] []) as H.
    destruct (init_loop ft n [] []) as [chs bufs]. exact H. }
  split; [| split; [| split; [| split]]].
  - rewrite Hch. destruct ft; reflexivity.
  - rewrite Hbuf. destruct ft; reflexivity.
  - apply init_n_channels.
  - apply init_inv.
  - rewrite Hch. apply Forall_replicate. destruct ft; cbn; lia.
Qed.
